(** * okta-collector: a shallow embedding of the poll loop and the Okta client

    The development follows the Go sources:
    - [client/helpers.go]  : [getResultsOffset], [convertLogsToString];
    - [client/client.go]   : [GetLogs], [getLogsRequest], [conductRequest],
                             [makeRetryableHttpCall] (module [Client]); the
                             earlier revision of the same file that is kept
                             next to [main.go] is embedded as [ClientLegacy];
    - [main.go]            : [pollEvery], [getEvents], [handleMessage].

    Go strings and byte slices are [string] (a sequence of 8-bit characters),
    Go's [int] is a 64-bit two's complement integer kept in [Z] with its
    wrap-around written out, maps ([http.Header], [url.Values]) are [gmap]s.
    Calls that leave the process (HTTP, the clock, the state file, the output
    sinks) are answered by an explicit script and recorded in a trace. *)

From Stdlib Require Import ZArith Lia Ascii.
From stdpp Require Import base strings list gmap.

Local Open Scope Z_scope.

(** ** Go runtime values *)

(** Characters that cannot be written inside a string literal. *)
Definition DQ : ascii := "034"%char.
Definition LF : ascii := "010"%char.
Definition newline : string := String LF "".

(** Go's [int] on the 64-bit targets the collector is built for. *)
Definition int_wrap (z : Z) : Z := (z + 2 ^ 63) mod 2 ^ 64 - 2 ^ 63.
Definition int_add (a b : Z) : Z := int_wrap (a + b).
Definition int_mul (a b : Z) : Z := int_wrap (a * b).
Definition len {A} (l : list A) : Z := Z.of_nat (length l).

(** [error] values; every error this program creates is [errors.New] of a
    formatted message. *)
Record error := errors_New { Error : string }.

Inductive result (A : Type) :=
| Ok (a : A)
| Err (e : error).
Arguments Ok {A} a.
Arguments Err {A} e.

(** A call either returns or panics (which ends the process: nothing in the
    program recovers). *)
Inductive may_panic (A : Type) :=
| Ret (a : A)
| Panic (msg : string).
Arguments Ret {A} a.
Arguments Panic {A} msg.

(** [url.Values] and [http.Header]: [map[string][]string]. *)
Abbreviation Values := (gmap string (list string)).

(** [v.Set(key, value)] replaces whatever [key] held. *)
Definition Values_Set (v : Values) (key value : string) : Values :=
  <[key := [value]]> v.

(** ** The Go libraries the client calls

    [encoding/json], [tidwall/pretty], [net/url] and [time] are not part of
    the collector; the client is embedded over their signatures. *)
Class GoLib := {
  (** a decoded [interface{}] *)
  JSON : Type;
  (** [json.Unmarshal(body, &items)] with [items []interface{}] *)
  json_Unmarshal : string → result (list JSON);
  (** [json.Marshal(val)] *)
  json_Marshal : JSON → result string;
  (** [json.Marshal(params)] of a [url.Values]; its error is dropped by the caller *)
  json_Marshal_Values : Values → string;
  (** [pretty.Ugly] *)
  pretty_Ugly : string → string;
  (** [*url.URL] as returned by [url.Parse] *)
  ParsedURL : Type;
  url_Parse : string → result ParsedURL;
  (** [u.Query()[key]]; the empty list is the nil slice of an absent key
      ([url.ParseQuery] never stores an empty slice) *)
  url_Query : ParsedURL → string → list string;
  (** [params.Encode()] *)
  Values_Encode : Values → string;
  (** [time.Time] and [t.Format(time.RFC3339)] *)
  Time : Type;
  Format_RFC3339 : Time → string
}.

(** ** [strings] and [regexp], as far as [getResultsOffset] uses them *)

(** [strings.Contains(s, substr)] *)
Fixpoint strings_Contains (s substr : string) : bool :=
  String.prefix substr s ||
  match s with
  | EmptyString => false
  | String _ s' => strings_Contains s' substr
  end.

(** [strings.Split(s, sep)] for a non-empty separator: [split_go] returns the
    piece under construction and the pieces after it; [skip] counts the
    characters of a separator occurrence still to be dropped. *)
Fixpoint split_go (sep : string) (skip : nat) (s : string) : string * list string :=
  match s with
  | EmptyString => (EmptyString, [])
  | String c s' =>
      match skip with
      | S k => split_go sep k s'
      | O =>
          if String.prefix sep s
          then let '(p, ps) := split_go sep (String.length sep - 1) s' in
               (EmptyString, p :: ps)
          else let '(p, ps) := split_go sep 0 s' in
               (String c p, ps)
      end
  end.

Definition strings_Split (s sep : string) : list string :=
  let '(p, ps) := split_go sep 0 s in p :: ps.

(** The regular expression of [getResultsOffset],
    [\<(.*?)\>; rel="next"]: a literal [<], a lazy group that does not cross
    a line feed, and the literal tail below. *)
Definition re_open : ascii := "<"%char.
Definition re_tail : string := ">; rel=" +:+ String DQ ("next" +:+ String DQ "").

(** The lazy group, tried right after a [<]: the shortest text followed by
    [re_tail]. *)
Fixpoint re_group (s : string) : option string :=
  if String.prefix re_tail s then Some EmptyString
  else match s with
       | EmptyString => None
       | String c s' =>
           if Ascii.eqb c LF then None
           else String c <$> re_group s'
       end.

(** [re.FindStringSubmatch(s)]: the leftmost match and its group, or nil. *)
Fixpoint re_FindStringSubmatch (s : string) : list string :=
  match s with
  | EmptyString => []
  | String c s' =>
      match (if Ascii.eqb c re_open then re_group s' else None) with
      | Some g => [String re_open (g +:+ re_tail); g]
      | None => re_FindStringSubmatch s'
      end
  end.

(** ** HTTP responses *)

Record Response := {
  StatusCode : Z;
  Status : string;
  Header : Values;
  (** what [ioutil.ReadAll(resp.Body)] returns: the bytes and the error *)
  Body : string;
  BodyErr : option error
}.

(** ** client/helpers.go *)

Section Helpers.
Context `{GoLib}.

(** The [for _, v := range resp.Header["Link"]] loop of [getResultsOffset];
    every path through the body of the [if] returns (or panics), so only
    the first value that mentions "next" is looked at. [match[1]] of a nil
    match is out of range, and [url.Parse] returns a nil URL with its error,
    on which [Query] dereferences nil. The line printed with the next URL is
    not part of the model ([fmt] prints a nil URL without panicking). *)
Fixpoint getResultsOffset_range (vs : list string) : may_panic string :=
  match vs with
  | [] => Ret ""
  | v :: vs' =>
      if strings_Contains v "next" then
        let s := strings_Split v "," in
        if negb (length s =? 2)%nat then Ret ""
        else
          let match_ := re_FindStringSubmatch (nth 1 s "") in
          match match_ !! 1%nat with
          | None => Panic "index out of range [1] with length 0"
          | Some m1 =>
              match url_Parse m1 with
              | Err _ => Panic "invalid memory address or nil pointer dereference"
              | Ok nextUrl =>
                  match url_Query nextUrl "after" with
                  | [] => Ret ""
                  | after0 :: _ => Ret after0
                  end
              end
          end
      else getResultsOffset_range vs'
  end.

Definition getResultsOffset (resp : Response) : may_panic string :=
  getResultsOffset_range (default [] (Header resp !! "Link")).

(** [convertLogsToString]: the first item that fails to marshal ends the
    conversion with [(nil, err)]. *)
Fixpoint convertLogsToString (items : list JSON) : result (list string) :=
  match items with
  | [] => Ok []
  | val :: items' =>
      match json_Marshal val with
      | Err e => Err e
      | Ok plain =>
          match convertLogsToString items' with
          | Err e => Err e
          | Ok data => Ok (plain :: data)
          end
      end
  end.
End Helpers.

(** ** The HTTP side of the client *)

(** Constants for the HTTP client (the same in both revisions). *)
Definition initialBackoffMS : Z := 1000.
Definition maxBackoffMS : Z := 32000.
Definition backoffFactor : Z := 2.
Definition rateLimitHttpCode : Z := 429.
Definition limit : string := "1000".

Record OktaClient := {
  Domain : string;
  Token : string
  (** [httpClient], a [*http.Client] with a 10 s timeout, is the peer that
      answers with the scripted [Attempt]s below *)
}.

Definition NewClient (domain token : string) : OktaClient :=
  {| Domain := domain; Token := token |}.

(** [url.URL] as [conductRequest] fills it. *)
Record URL := {
  Scheme : string;
  Host : string;
  Path : string;
  RawQuery : string
}.

(** What [makeRetryableHttpCall] hands to [httpClient.Do]. *)
Record Request := {
  req_method : string;
  req_url : URL;
  req_headers : gmap string string;
  req_body : option string
}.

(** One turn of the retry loop as the outside world answers it:
    [http.NewRequest] refuses the request, [httpClient.Do] fails (the
    response is nil), or [Do] returns a response. *)
Inductive Attempt :=
| NewRequestFails (e : error)
| DoFails (e : error)
| DoReturns (resp : Response).

(** The triple [resp, body, err] a call returns; a nil body is the empty
    string. *)
Record CallResult := {
  cr_resp : option Response;
  cr_body : string;
  cr_err : option error
}.

(** A retryable call that has returned, with the delays (in milliseconds) it
    slept through, in order. [None] in place of a [Call] means that the
    script ended while the loop was still running. *)
Record Call := {
  call_result : CallResult;
  call_sleeps : list Z
}.

Definition slept (ms : Z) (c : Call) : Call :=
  {| call_result := call_result c; call_sleeps := ms :: call_sleeps c |}.

Definition returned (resp : option Response) (body : string) (err : option error) : Call :=
  {| call_result := {| cr_resp := resp; cr_body := body; cr_err := err |};
     call_sleeps := [] |}.

(** [strings.ToUpper] on ASCII letters (the only method ever passed is the
    literal GET). *)
Definition ascii_upper (c : ascii) : ascii :=
  let n := nat_of_ascii c in
  if ((97 <=? n) && (n <=? 122))%nat then ascii_of_nat (n - 32) else c.

Fixpoint strings_ToUpper (s : string) : string :=
  match s with
  | EmptyString => EmptyString
  | String c s' => String (ascii_upper c) (strings_ToUpper s')
  end.

(** What [GetLogs] did: how it ended, the requests of its page fetches and
    the messages it sent on [resultsChannel], both in program order. *)
Inductive Outcome :=
| Returned (count : Z) (err : option error)
| Crashed (msg : string)
| Pending.

Record Run := {
  run_outcome : Outcome;
  run_requests : list Request;
  run_sent : list string
}.

Definition run_end (o : Outcome) (req : Request) (sent : list string) : Run :=
  {| run_outcome := o; run_requests := [req]; run_sent := sent |}.

Definition run_then (req : Request) (sent : list string) (r : Run) : Run :=
  {| run_outcome := run_outcome r;
     run_requests := req :: run_requests r;
     run_sent := sent ++ run_sent r |}.

(** One page as [getLogsRequest] returns it: [(events, newAfterLink, err)]. *)
Record Page := {
  page_events : list string;
  page_after : string;
  page_err : option error
}.

Definition page_failed (what : string) (err : error) : Page :=
  {| page_events := []; page_after := "";
     page_err := Some (errors_New (what +:+ Error err +:+ newline)) |}.

(** ** client/client.go *)

Module Client.
Section WithLib.
Context `{GoLib}.

(** The body of the [for] of [makeRetryableHttpCall], one script entry per
    turn. The request is rebuilt identically on every turn, so only the
    answers differ. *)
Fixpoint retry_loop (backoffMs : Z) (script : list Attempt) : option Call :=
  match script with
  | [] => None
  | NewRequestFails e :: _ => Some (returned None "" (Some e))
  | DoFails e :: _ => Some (returned None "" (Some e))
  | DoReturns resp :: script' =>
      if negb (StatusCode resp =? 200) && negb (StatusCode resp =? rateLimitHttpCode)
      then Some (returned (Some resp) ""
                   (Some (errors_New ("HTTP response code: " +:+ Status resp +:+ newline))))
      else if (backoffMs >? maxBackoffMS) || negb (StatusCode resp =? rateLimitHttpCode)
      then Some (returned (Some resp) (Body resp) (BodyErr resp))
      else slept backoffMs <$> retry_loop (int_mul backoffMs backoffFactor) script'
  end.

Definition makeRetryableHttpCall (req : Request) (script : list Attempt) : option Call :=
  retry_loop initialBackoffMS script.

(** [conductRequest] builds the URL, the headers and the body, makes the
    retryable call and drops response and body when the call failed. The
    request is returned next to the result, for the trace; the line printed
    in verbose mode is not part of the model. *)
Definition conductRequest (oktaClient : OktaClient) (method uri : string)
    (params : Values) (script : list Attempt) : Request * option Call :=
  let method := strings_ToUpper method in
  let urlObj :=
    {| Scheme := "https"; Host := Domain oktaClient; Path := uri;
       RawQuery := if (method =? "GET")%string then Values_Encode params else "" |} in
  let headers : gmap string string :=
    <["Content-Type" := "application/json"]>
      (<["Authorization" := "SSWS " +:+ Token oktaClient]>
         (<["Accept" := "application/json"]> ∅)) in
  let requestBody :=
    if (method =? "POST")%string || (method =? "PUT")%string
    then Some (json_Marshal_Values params) else None in
  let req := {| req_method := method; req_url := urlObj;
                req_headers := headers; req_body := requestBody |} in
  (req,
   (λ call, match cr_err (call_result call) with
            | Some err => {| call_result := {| cr_resp := None; cr_body := ""; cr_err := Some err |};
                             call_sleeps := call_sleeps call |}
            | None => call
            end) <$> makeRetryableHttpCall req script).

(** [params] is a Go map, shared with the caller: the [Set] of the cursor
    stays in it, so the updated map is returned with the page. *)
Definition getLogsRequest (oktaClient : OktaClient) (params : Values)
    (afterLink : string) (script : list Attempt)
  : Values * Request * option (may_panic Page) :=
  let params :=
    if negb (afterLink =? "")%string then Values_Set params "after" afterLink else params in
  let '(req, call) := conductRequest oktaClient "GET" "/api/v1/logs" params script in
  (params, req,
   (λ call,
      match cr_err (call_result call) with
      | Some err => Ret (page_failed "Error conducting request: " err)
      | None =>
          match json_Unmarshal (cr_body (call_result call)) with
          | Err err => Ret (page_failed "Error unmarshalling response body: " err)
          | Ok tmpEventsRaw =>
              match convertLogsToString tmpEventsRaw with
              | Err err => Ret (page_failed "Error converting logs to strings: " err)
              | Ok events =>
                  match cr_resp (call_result call) with
                  | None => Panic "invalid memory address or nil pointer dereference"
                  | Some response =>
                      match getResultsOffset response with
                      | Panic msg => Panic msg
                      | Ret newAfterLink =>
                          Ret {| page_events := events; page_after := newAfterLink;
                                 page_err := None |}
                      end
                  end
              end
          end
      end) <$> call).

(** The [for hasNext] loop of [GetLogs]; [calls] scripts one retryable
    call per page. [hasNext] is [true] on entry and [newAfterLink != ""]
    afterwards, so the loop is entered once more exactly when the cursor
    is not empty. *)
Fixpoint GetLogs_loop (oktaClient : OktaClient) (params : Values) (count : Z)
    (afterLink : string) (calls : list (list Attempt)) : Run :=
  match calls with
  | [] =>
      let '(_, req, _) := getLogsRequest oktaClient params afterLink [] in
      run_end Pending req []
  | script :: calls' =>
      let '(params, req, page) := getLogsRequest oktaClient params afterLink script in
      match page with
      | None => run_end Pending req []
      | Some (Panic msg) => run_end (Crashed msg) req []
      | Some (Ret p) =>
          match page_err p with
          | Some err => run_end (Returned (-1) (Some err)) req []
          | None =>
              let sent := pretty_Ugly <$> page_events p in
              let count := int_add count (len (page_events p)) in
              if (page_after p =? "")%string
              then run_end (Returned count None) req sent
              else run_then req sent
                     (GetLogs_loop oktaClient params count (page_after p) calls')
          end
      end
  end.

Definition GetLogs (oktaClient : OktaClient) (startTime endTime : string)
    (calls : list (list Attempt)) : Run :=
  let params : Values := ∅ in
  let params := Values_Set params "limit" limit in
  let params := Values_Set params "since" startTime in
  let params := Values_Set params "until" endTime in
  GetLogs_loop oktaClient params 0 "" calls.
End WithLib.
End Client.

(** ** The earlier revision of client/client.go

    It differs from [Client] in three places: [makeRetryableHttpCall] hands
    every response that is not a rate limit to the caller, whatever its
    status; [GetLogs] fetches the first page outside its loop and returns at
    once when that page is empty; and the cursor is sent under the key
    "next". *)

Definition run_done (o : Outcome) : Run :=
  {| run_outcome := o; run_requests := []; run_sent := [] |}.

Module ClientLegacy.
Section WithLib.
Context `{GoLib}.

Fixpoint retry_loop (backoffMs : Z) (script : list Attempt) : option Call :=
  match script with
  | [] => None
  | NewRequestFails e :: _ => Some (returned None "" (Some e))
  | DoFails e :: _ => Some (returned None "" (Some e))
  | DoReturns resp :: script' =>
      if (backoffMs >? maxBackoffMS) || negb (StatusCode resp =? rateLimitHttpCode)
      then Some (returned (Some resp) (Body resp) (BodyErr resp))
      else slept backoffMs <$> retry_loop (int_mul backoffMs backoffFactor) script'
  end.

Definition makeRetryableHttpCall (req : Request) (script : list Attempt) : option Call :=
  retry_loop initialBackoffMS script.

(** As in the later revision, except that the URL is always printed. *)
Definition conductRequest (oktaClient : OktaClient) (method uri : string)
    (params : Values) (script : list Attempt) : Request * option Call :=
  let method := strings_ToUpper method in
  let urlObj :=
    {| Scheme := "https"; Host := Domain oktaClient; Path := uri;
       RawQuery := if (method =? "GET")%string then Values_Encode params else "" |} in
  let headers : gmap string string :=
    <["Content-Type" := "application/json"]>
      (<["Authorization" := "SSWS " +:+ Token oktaClient]>
         (<["Accept" := "application/json"]> ∅)) in
  let requestBody :=
    if (method =? "POST")%string || (method =? "PUT")%string
    then Some (json_Marshal_Values params) else None in
  let req := {| req_method := method; req_url := urlObj;
                req_headers := headers; req_body := requestBody |} in
  (req,
   (λ call, match cr_err (call_result call) with
            | Some err => {| call_result := {| cr_resp := None; cr_body := ""; cr_err := Some err |};
                             call_sleeps := call_sleeps call |}
            | None => call
            end) <$> makeRetryableHttpCall req script).

(** The three error checks that follow each [conductRequest] in [GetLogs]
    (written out twice in the source): the events of the page, or the
    error [GetLogs] returns with [-1]. *)
Definition decode_events (call : Call) : result (list string) :=
  match cr_err (call_result call) with
  | Some err => Err (errors_New ("Error conducting request: " +:+ Error err +:+ newline))
  | None =>
      match json_Unmarshal (cr_body (call_result call)) with
      | Err err => Err (errors_New ("Error unmarshalling response body: " +:+ Error err +:+ newline))
      | Ok tmpEventsRaw =>
          match convertLogsToString tmpEventsRaw with
          | Err err => Err (errors_New ("Error converting logs to strings: " +:+ Error err +:+ newline))
          | Ok events => Ok events
          end
      end
  end.

(** [afterLink = getResultsOffset(response)] *)
Definition offset_of (call : Call) : may_panic string :=
  match cr_resp (call_result call) with
  | None => Panic "invalid memory address or nil pointer dereference"
  | Some response => getResultsOffset response
  end.

(** The [for afterLink != ""] loop. *)
Fixpoint paged_loop (oktaClient : OktaClient) (params : Values) (count : Z)
    (afterLink : string) (calls : list (list Attempt)) : Run :=
  if (afterLink =? "")%string then run_done (Returned count None)
  else
    let params := Values_Set params "next" afterLink in
    match calls with
    | [] =>
        run_end Pending (conductRequest oktaClient "GET" "/api/v1/logs" params []).1 []
    | script :: calls' =>
        let '(req, call) := conductRequest oktaClient "GET" "/api/v1/logs" params script in
        match call with
        | None => run_end Pending req []
        | Some call =>
            match decode_events call with
            | Err err => run_end (Returned (-1) (Some err)) req []
            | Ok events =>
                let count := int_add count (len events) in
                let sent := pretty_Ugly <$> events in
                match offset_of call with
                | Panic msg => run_end (Crashed msg) req sent
                | Ret afterLink =>
                    run_then req sent (paged_loop oktaClient params count afterLink calls')
                end
            end
        end
    end.

Definition GetLogs (oktaClient : OktaClient) (startTime endTime : string)
    (calls : list (list Attempt)) : Run :=
  let count := 0 in
  let params : Values := ∅ in
  let params := Values_Set params "limit" limit in
  let params := Values_Set params "since" startTime in
  let params := Values_Set params "until" endTime in
  match calls with
  | [] => run_end Pending (conductRequest oktaClient "GET" "/api/v1/logs" params []).1 []
  | script :: calls' =>
      let '(req, call) := conductRequest oktaClient "GET" "/api/v1/logs" params script in
      match call with
      | None => run_end Pending req []
      | Some call =>
          match decode_events call with
          | Err err => run_end (Returned (-1) (Some err)) req []
          | Ok events =>
              if len events =? 0 then run_end (Returned 0 None) req []
              else
                let count := int_add count (len events) in
                let sent := pretty_Ugly <$> events in
                match offset_of call with
                | Panic msg => run_end (Crashed msg) req sent
                | Ret afterLink =>
                    run_then req sent (paged_loop oktaClient params count afterLink calls')
                end
          end
      end
  end.
End WithLib.
End ClientLegacy.

(** ** main.go: the poll loop *)

(** The resolved configuration values ([viper.Get...]). *)
Record Config := {
  cfg_okta_domain : string;
  cfg_okta_api_key : string;
  cfg_state_path : string
}.

(** [state.State] of collector-helpers: the checkpoint. *)
Record State := { LastPollTimestamp : string }.

(** What the poll goroutine does to the outside, in program order. *)
Inductive Event :=
| EvLog (msg : string)
| EvGetLogs (startTime endTime : string) (sent : list string)
| EvDrainWait (depth : nat)
| EvRotate
| EvWriteToOutputs (path label : string)
| EvRemove (path : string)
| EvProcessed (eventCount : Z)
| EvSave (st : State) (path : string)
| EvAfter (seconds : Z).

(** How one turn of the loop ends: it goes on with the (mutated) state, the
    process exits through [log.Fatalf], it panics, or the script of the
    outside world ends first. *)
Inductive CycleEnd :=
| Continue (st : State)
| Fatal (msg : string)
| Crash (msg : string)
| Stuck.

(** The state file at start-up: [state.Exists] and [state.Restore]. *)
Inductive StateFile :=
| NoStateFile
| StateFileHolds (restored : result State).

Section Main.
Context `{GoLib}.

(** [client.GetLogs], either revision. *)
Variable GetLogs : OktaClient → string → string → list (list Attempt) → Run.
Variable cfg : Config.
(** [state.New()] *)
Variable state_New : State.

(** The answers of the outside world during one turn of the loop. *)
Record CycleEnv := {
  (** [time.Now()] in [getEvents] *)
  env_now : Time;
  (** the HTTP answers, one script per retryable call *)
  env_calls : list (list Attempt);
  (** [len(resultsChannel)] each time the draining loop reads it *)
  env_depths : list nat;
  (** [tmpWriter.LastFilePath] after [Rotate] *)
  env_last_file : string;
  (** what [outputs.WriteToOutputs] and [os.Remove] return *)
  env_write : option error;
  env_remove : option error
}.

(** [getEvents]: the count and [now], or the way the process ends. *)
Definition getEvents (timestamp : string) (env : CycleEnv)
  : list Event * (Z * Time + CycleEnd) :=
  let now := env_now env in
  let oktaClient := NewClient (cfg_okta_domain cfg) (cfg_okta_api_key cfg) in
  let run := GetLogs oktaClient timestamp (Format_RFC3339 now) (env_calls env) in
  ([EvGetLogs timestamp (Format_RFC3339 now) (run_sent run)],
   match run_outcome run with
   | Returned count None => inl (count, now)
   | Returned _ (Some err) => inr (Fatal ("Unable to retrieve okta logs: " +:+ Error err))
   | Crashed msg => inr (Crash msg)
   | Pending => inr Stuck
   end).

(** [for len(resultsChannel) != 0 { <-time.After(1 s) }] *)
Fixpoint drain (depths : list nat) : list Event * bool :=
  match depths with
  | [] => ([], false)
  | O :: _ => ([], true)
  | S d :: depths' =>
      let '(waits, drained) := drain depths' in (EvDrainWait (S d) :: waits, drained)
  end.

(** One turn of the [for] of [pollEvery]. *)
Definition pollCycle (seconds : Z) (currentState : State) (env : CycleEnv)
  : list Event * CycleEnd :=
  let '(fetch, got) := getEvents (LastPollTimestamp currentState) env in
  let fetch := EvLog "Getting data..." :: fetch in
  match got with
  | inr stop => (fetch, stop)
  | inl (eventCount, lastPollTime) =>
      let currentState' := {| LastPollTimestamp := Format_RFC3339 lastPollTime |} in
      let update :=
        [EvProcessed eventCount; EvSave currentState' (cfg_state_path cfg); EvAfter seconds] in
      if eventCount >? 0 then
        let '(waits, drained) := drain (env_depths env) in
        if negb drained then (fetch ++ waits, Stuck)
        else
          let copy :=
            fetch ++ waits ++
            [EvRotate; EvWriteToOutputs (env_last_file env) (Format_RFC3339 lastPollTime)] in
          match env_write env with
          | Some err => (copy, Fatal ("Unable to write to output: " +:+ Error err))
          | None =>
              let copy := copy ++ [EvRemove (env_last_file env)] in
              match env_remove env with
              | Some err => (copy, Fatal ("Unable to remove tmp file: " +:+ Error err))
              | None => (copy ++ update, Continue currentState')
              end
          end
      else (fetch ++ update, Continue currentState')
  end.

(** The [for] of [pollEvery] over the turns the script covers. *)
Fixpoint poll_loop (seconds : Z) (currentState : State) (envs : list CycleEnv)
  : list Event * CycleEnd :=
  match envs with
  | [] => ([], Continue currentState)
  | env :: envs' =>
      let '(tr, e) := pollCycle seconds currentState env in
      match e with
      | Continue currentState' =>
          let '(tr', e') := poll_loop seconds currentState' envs' in (tr ++ tr', e')
      | _ => (tr, e)
      end
  end.

Definition pollEvery (seconds : Z) (file : StateFile) (envs : list CycleEnv)
  : list Event * CycleEnd :=
  match file with
  | StateFileHolds (Err err) => ([], Fatal ("Error getting state: " +:+ Error err +:+ newline))
  | StateFileHolds (Ok currentState) => poll_loop seconds currentState envs
  | NoStateFile => poll_loop seconds state_New envs
  end.

(** The checkpoint on disk after a trace: what the last [state.Save]
    wrote, or what the file held before. *)
Definition saved (tr : list Event) : list State :=
  omap (λ e, match e with EvSave st _ => Some st | _ => None end) tr.

Definition persisted (disk : option State) (tr : list Event) : option State :=
  match last (saved tr) with
  | Some st => Some st
  | None => disk
  end.
End Main.

(** ** main.go: the results channel and its consumer

    [GetLogs] runs in the poll goroutine and is the only sender on
    [chnMessages]; [main] ranges over the channel and hands every message to
    [handleMessage], which appends it to the temp file or, when the write
    fails, ends the process. The two goroutines are interleaved by a
    schedule of moves; a move that is blocked (a send on a full channel, a
    receive on an empty one) leaves the state as it is. *)

Definition maxMessages : nat := 5000.

Record Pipeline := {
  (** the sends [GetLogs] has still to make, in program order *)
  pl_unsent : list string;
  (** [chnMessages], oldest message first *)
  pl_queue : list string;
  (** the [message] of the [range] loop, received and not yet written *)
  pl_taken : option string;
  (** the [tmpWriter.WriteLog] calls that returned nil, in order *)
  pl_file : list string;
  (** [false] once [handleMessage] has ended the process with [log.Fatalf] *)
  pl_alive : bool
}.

Inductive Move :=
| ProducerSends
| ConsumerReceives
| ConsumerWrites
| ConsumerWriteFails.

Definition pl_move (capacity : nat) (mv : Move) (p : Pipeline) : Pipeline :=
  if negb (pl_alive p) then p
  else
    match mv with
    | ProducerSends =>
        match pl_unsent p with
        | m :: unsent =>
            if (length (pl_queue p) <? capacity)%nat
            then {| pl_unsent := unsent; pl_queue := pl_queue p ++ [m];
                    pl_taken := pl_taken p; pl_file := pl_file p; pl_alive := true |}
            else p
        | [] => p
        end
    | ConsumerReceives =>
        match pl_taken p, pl_queue p with
        | None, m :: queue =>
            {| pl_unsent := pl_unsent p; pl_queue := queue;
               pl_taken := Some m; pl_file := pl_file p; pl_alive := true |}
        | _, _ => p
        end
    | ConsumerWrites =>
        match pl_taken p with
        | Some m =>
            {| pl_unsent := pl_unsent p; pl_queue := pl_queue p;
               pl_taken := None; pl_file := pl_file p ++ [m]; pl_alive := true |}
        | None => p
        end
    | ConsumerWriteFails =>
        match pl_taken p with
        | Some m =>
            {| pl_unsent := pl_unsent p; pl_queue := pl_queue p;
               pl_taken := Some m; pl_file := pl_file p; pl_alive := false |}
        | None => p
        end
    end.

Definition pl_run (capacity : nat) (schedule : list Move) (p : Pipeline) : Pipeline :=
  foldl (λ p mv, pl_move capacity mv p) p schedule.

Definition pl_start (sends : list string) : Pipeline :=
  {| pl_unsent := sends; pl_queue := []; pl_taken := None; pl_file := [];
     pl_alive := true |}.

(** Everything that has entered the channel so far. *)
Definition pl_enqueued (p : Pipeline) : list string :=
  pl_file p ++ option_list (pl_taken p) ++ pl_queue p.

(** ** cli.go: flags and configuration

    [viper] and [pflag] resolve the options from flags, environment and
    config file; the functions below only read the resolved values, so
    these are a record. [os.Stat], [viper.BindPFlags],
    [viper.ReadInConfig] and the validators of collector-helpers are
    answered by the environment. *)

Record Settings := {
  (** [viper.GetInt("schedule")] *)
  set_schedule : Z;
  (** [viper.GetBool("config")] and [viper.GetString("config-path")] *)
  set_config : bool;
  set_config_path : string;
  (** [viper.GetString("okta-domain")] and [viper.GetString("okta-api-key")] *)
  set_okta_domain : string;
  set_okta_api_key : string
}.

(** What [os.Stat] returns: the info of a file or of a directory, an error
    for which [os.IsNotExist] holds, or another error (with a nil info). *)
Inductive StatResult :=
| StatFile
| StatDir
| StatNotExist
| StatError (e : error).

Record CliEnv := {
  cli_bind : option error;
  cli_settings : Settings;
  cli_stat : string → StatResult;
  (** [viper.ReadInConfig()]: its error, or the values resolved afterwards *)
  cli_read_in_config : result Settings;
  (** [state.ValidateCLIParams()] and [outputs.ValidateCLIParams()] *)
  cli_state_validate : option error;
  cli_outputs_validate : option error
}.

(** The calls that set up the config file. *)
Inductive CliEvent :=
| CliSetConfigName (fileName : string)
| CliSetConfigType (ext : string)
| CliAddConfigPath (dir : string)
| CliReadInConfig.

(** [fileExists]: when [os.Stat] fails with another error than not-exist,
    [info] is nil and [info.IsDir()] panics. *)
Definition fileExists (stat : string → StatResult) (filename : string) : may_panic bool :=
  match stat filename with
  | StatNotExist => Ret false
  | StatFile => Ret true
  | StatDir => Ret false
  | StatError _ => Panic "invalid memory address or nil pointer dereference"
  end.

(** [contains] *)
Fixpoint contains (s : list string) (e : string) : bool :=
  match s with
  | [] => false
  | a :: s' => if (a =? e)%string then true else contains s' e
  end.

(** [strings.ToLower] on ASCII letters. *)
Definition ascii_lower (c : ascii) : ascii :=
  let n := nat_of_ascii c in
  if ((65 <=? n) && (n <=? 90))%nat then ascii_of_nat (n + 32) else c.

Fixpoint strings_ToLower (s : string) : string :=
  match s with
  | EmptyString => EmptyString
  | String c s' => String (ascii_lower c) (strings_ToLower s')
  end.

(** Does the text hold a slash or a dot? *)
Fixpoint has_slash_or_dot (s : string) : bool :=
  match s with
  | EmptyString => false
  | String c s' => Ascii.eqb c "/" || Ascii.eqb c "." || has_slash_or_dot s'
  end.

Fixpoint has_slash (s : string) : bool :=
  match s with
  | EmptyString => false
  | String c s' => Ascii.eqb c "/" || has_slash s'
  end.

(** [filepath.Ext]: the text from the last dot of the last element of the
    path on, or nothing when that element has no dot. *)
Fixpoint filepath_Ext (path : string) : string :=
  match path with
  | EmptyString => EmptyString
  | String c rest =>
      if has_slash_or_dot rest then filepath_Ext rest
      else if Ascii.eqb c "." then path else EmptyString
  end.

(** [filepath.Split]: the directory with its final slash, and the file. *)
Fixpoint filepath_Split (path : string) : string * string :=
  match path with
  | EmptyString => (EmptyString, EmptyString)
  | String c rest =>
      if has_slash rest
      then let '(dir, file) := filepath_Split rest in (String c dir, file)
      else if Ascii.eqb c "/" then (String c EmptyString, rest)
      else (EmptyString, path)
  end.

(** [strings.TrimSuffix] *)
Definition strings_TrimSuffix (s suffix : string) : string :=
  let n := String.length s in
  let k := String.length suffix in
  if ((k <=? n)%nat && (String.substring (n - k) k s =? suffix)%string)%bool
  then String.substring 0 (n - k) s else s.

(** [strings.Join] *)
Fixpoint strings_Join (elems : list string) (sep : string) : string :=
  match elems with
  | [] => ""
  | [e] => e
  | e :: elems' => e +:+ sep +:+ strings_Join elems' sep
  end.

Definition supportedTypes : list string :=
  ["json"; "toml"; "yaml"; "yml"; "properties"; "props"; "prop"; "env"; "dotenv"].

(** [checkConfigParams]: the calls made to [viper], and the error returned
    with the settings in force afterwards (or the panic of [fileExists]). *)
Definition checkConfigParams (env : CliEnv)
  : list CliEvent * may_panic (option error * Settings) :=
  let settings := cli_settings env in
  if set_config settings then
    match fileExists (cli_stat env) (set_config_path settings) with
    | Panic msg => ([], Panic msg)
    | Ret false =>
        ([], Ret (Some (errors_New "missing config file path param (--config-path)"),
                  settings))
    | Ret true =>
        let '(dir, file) := filepath_Split (set_config_path settings) in
        let ext := strings_ToLower (filepath_Ext (set_config_path settings)) in
        if negb (contains supportedTypes ext) then
          ([], Ret (Some (errors_New ("invalid config file type (supported: " +:+
                                      strings_Join supportedTypes ", " +:+ " )")),
                    settings))
        else
          let fileName := strings_TrimSuffix file ext in
          let calls := [CliSetConfigName fileName; CliSetConfigType ext;
                        CliAddConfigPath dir; CliReadInConfig] in
          match cli_read_in_config env with
          | Err err =>
              (calls, Ret (Some (errors_New ("Fatal error config file: " +:+ Error err
                                             +:+ " " +:+ newline)),
                           settings))
          | Ok settings' => (calls, Ret (None, settings'))
          end
    end
  else ([], Ret (None, settings)).

(** [checkRequiredParams] *)
Definition checkRequiredParams (settings : Settings) (env : CliEnv) : option error :=
  if (set_okta_domain settings =? "")%string
  then Some (errors_New "missing okta domain param (--okta-domain)")
  else if (set_okta_api_key settings =? "")%string
  then Some (errors_New "missing okta api key param (--okta-api-key)")
  else match cli_state_validate env with
       | Some err => Some err
       | None => cli_outputs_validate env
       end.

(** How [setupCliFlags] ends: it returns, the process exits through
    [log.Fatalf], or it panics. The settings are those in force when it
    returns. *)
Inductive CliEnd :=
| CliReturns (err : option error) (settings : Settings)
| CliFatal (msg : string)
| CliPanics (msg : string).

Definition setupCliFlags (env : CliEnv) : list CliEvent * CliEnd :=
  match cli_bind env with
  | Some err => ([], CliFatal ("Failed parsing flags: " +:+ Error err))
  | None =>
      let '(calls, checked) := checkConfigParams env in
      match checked with
      | Panic msg => (calls, CliPanics msg)
      | Ret (Some err, settings) => (calls, CliReturns (Some err) settings)
      | Ret (None, settings) =>
          (calls, CliReturns (checkRequiredParams settings env) settings)
      end
  end.

(** The start of [main], up to the point where the poll goroutine and the
    consumer loop are started: with which schedule and which client
    configuration, or how the process ends before. [tmp_writer] is what
    [outputs.NewTmpWriter()] returns. *)
Inductive MainStart :=
| MainRuns (pollTime : Z) (settings : Settings)
| MainFatal (msg : string)
| MainPanics (msg : string).

Definition main_start (env : CliEnv) (tmp_writer : option error) : MainStart :=
  match (setupCliFlags env).2 with
  | CliFatal msg => MainFatal msg
  | CliPanics msg => MainPanics msg
  | CliReturns (Some err) _ => MainFatal ("initialization failed: " +:+ Error err)
  | CliReturns None settings =>
      match tmp_writer with
      | Some err => MainFatal (Error err +:+ newline)
      | None => MainRuns (set_schedule settings) settings
      end
  end.

(** ** A small instance of the libraries

    Enough of [encoding/json] and [net/url] to run the client on examples:
    a body is a bracketed, comma separated list of items that are kept as
    text, and a URL is its query, cut into [key=value] pairs at each
    ampersand, without escapes. *)
Module SmallLib.
Definition drop_last (s : string) : string :=
  String.substring 0 (String.length s - 1) s.

Definition last_is (c : ascii) (s : string) : bool :=
  match String.get (String.length s - 1) s with
  | Some c' => Ascii.eqb c c'
  | None => false
  end.

Definition unmarshal (body : string) : result (list string) :=
  match body with
  | String "[" rest =>
      if last_is "]" rest then
        let inner := drop_last rest in
        if (inner =? "")%string then Ok [] else Ok (strings_Split inner ",")
      else Err (errors_New "unexpected end of JSON input")
  | _ => Err (errors_New "invalid character looking for beginning of value")
  end.

(** the text after the first occurrence of [c] *)
Fixpoint after_char (c : ascii) (s : string) : option string :=
  match s with
  | EmptyString => None
  | String c' s' => if Ascii.eqb c c' then Some s' else after_char c s'
  end.

Fixpoint before_char (c : ascii) (s : string) : string :=
  match s with
  | EmptyString => EmptyString
  | String c' s' => if Ascii.eqb c c' then EmptyString else String c' (before_char c s')
  end.

Fixpoint has_control (s : string) : bool :=
  match s with
  | EmptyString => false
  | String c s' => (nat_of_ascii c <? 32)%nat || (nat_of_ascii c =? 127)%nat || has_control s'
  end.

Definition parse (rawURL : string) : result string :=
  if has_control rawURL then Err (errors_New "net/url: invalid control character in URL")
  else Ok (default "" (after_char "?" (before_char "#" rawURL))).

Definition query (rawQuery key : string) : list string :=
  omap (λ kv, if (before_char "=" kv =? key)%string
              then Some (default "" (after_char "=" kv)) else None)
       (strings_Split rawQuery "&").

(** the keys in increasing order (insertion sort on the byte order) *)
Fixpoint insert_sorted (k : string * list string) (l : list (string * list string))
  : list (string * list string) :=
  match l with
  | [] => [k]
  | k' :: l' => if String.leb k.1 k'.1 then k :: l else k' :: insert_sorted k l'
  end.

Definition encode (v : Values) : string :=
  let pairs := foldr insert_sorted [] (map_to_list v) in
  let items := pairs ≫= (λ kv, (λ x, kv.1 +:+ "=" +:+ x) <$> kv.2) in
  match items with
  | [] => ""
  | i :: items' => foldl (λ acc x, acc +:+ "&" +:+ x) i items'
  end.

#[export] Instance lib : GoLib := {|
  JSON := string;
  json_Unmarshal := unmarshal;
  json_Marshal := λ val, Ok val;
  json_Marshal_Values := λ _, "{}";
  pretty_Ugly := λ json, json;
  ParsedURL := string;
  url_Parse := parse;
  url_Query := query;
  Values_Encode := encode;
  Time := string;
  Format_RFC3339 := λ t, t
|}.
End SmallLib.

(** ** Vocabulary of the statements *)

(** The delay slept before re-attempt number [k + 1]. *)
Definition backoff_delay (k : nat) : Z :=
  initialBackoffMS * backoffFactor ^ Z.of_nat k.

Definition backoff_delays (n : nat) : list Z := backoff_delay <$> seq 0 n.

(** A call that is known to have slept through [ds] before the rest of it. *)
Definition slept_all (ds : list Z) (c : Call) : Call :=
  {| call_result := call_result c; call_sleeps := ds ++ call_sleeps c |}.


(** ** Example data *)

Module Examples.
Definition quoted (s : string) : string := String DQ (s +:+ String DQ "").

Definition too_many_requests : Response :=
  {| StatusCode := 429; Status := "429 Too Many Requests"; Header := ∅;
     Body := "{}"; BodyErr := None |}.

Definition internal_error : Response :=
  {| StatusCode := 500; Status := "500 Internal Server Error"; Header := ∅;
     Body := "[]"; BodyErr := None |}.

(** a page of two events whose links name the cursor x *)
Definition links_AB : string :=
  "<https://okta.example/api/v1/logs?limit=1000>; rel=" +:+ quoted "self" +:+
  ", <https://okta.example/api/v1/logs?after=x&limit=1000>; rel=" +:+ quoted "next".

Definition page_AB : Response :=
  {| StatusCode := 200; Status := "200 OK"; Header := {["Link" := [links_AB]]};
     Body := "[A,B]"; BodyErr := None |}.

(** the last page: one event and no links *)
Definition page_C : Response :=
  {| StatusCode := 200; Status := "200 OK"; Header := ∅;
     Body := "[C]"; BodyErr := None |}.

Definition get_logs : Request :=
  {| req_method := "GET";
     req_url := {| Scheme := "https"; Host := "okta.example"; Path := "/api/v1/logs";
                   RawQuery := "limit=1000" |};
     req_headers := ∅; req_body := None |}.

Definition oktaClient : OktaClient := NewClient "okta.example" "token".
End Examples.


(** The error [makeRetryableHttpCall] makes of an unexpected status. *)
Definition status_error (resp : Response) : error :=
  errors_New ("HTTP response code: " +:+ Status resp +:+ newline).

(** The page of one retryable call, as [getLogsRequest] returns it; the
    client, the parameters and the cursor only shape the request. *)
Definition fetch_page `{GoLib} (script : list Attempt) : option (may_panic Page) :=
  (Client.getLogsRequest (NewClient "" "") ∅ "" script).2.


(** The parameters of a page request: [getLogsRequest] sets the cursor
    when there is one. *)
Definition next_params (params : Values) (afterLink : string) : Values :=
  if negb (afterLink =? "")%string then Values_Set params "after" afterLink else params.

(** The request [conductRequest] builds for a page of logs. *)
Definition logs_request `{GoLib} (oktaClient : OktaClient) (params : Values) : Request :=
  (Client.conductRequest oktaClient "GET" "/api/v1/logs" params []).1.

(** The parameters [GetLogs] starts from. *)
Definition base_params (startTime endTime : string) : Values :=
  Values_Set (Values_Set (Values_Set ∅ "limit" limit) "since" startTime) "until" endTime.

(** A page that came back whole: its call returned, its body decoded and
    its link header was read. *)
Definition delivered `{GoLib} (script : list Attempt) (p : Page) : Prop :=
  fetch_page script = Some (Ret p) ∧ page_err p = None.

Definition records_total (pages : list Page) : Z :=
  foldr (λ p n, len (page_events p) + n) 0 pages.

(** The messages of a sequence of pages, as [GetLogs] sends them. *)
Definition messages `{GoLib} (pages : list Page) : list string :=
  pages ≫= (λ p, pretty_Ugly <$> page_events p).


Module ExamplePages.
Import Examples.

(** the two pages above as [getLogsRequest] returns them over [SmallLib] *)
Definition first : Page :=
  {| page_events := ["A"; "B"]; page_after := "x"; page_err := None |}.
Definition second : Page :=
  {| page_events := ["C"]; page_after := ""; page_err := None |}.

Definition two_pages : list (list Attempt) :=
  [[DoReturns page_AB]; [DoReturns page_C]].

(** the second page is refused by the server *)
Definition broken_second : list (list Attempt) :=
  [[DoReturns page_AB]; [DoReturns internal_error]].
End ExamplePages.



(** The page of a call is received when the call returned a response
    without error and the body decoded into [events]. *)
Definition page_received `{GoLib} (script : list Attempt) (resp : Response)
    (events : list string) : Prop :=
  ∃ call items,
    Client.retry_loop initialBackoffMS script = Some call ∧
    cr_err (call_result call) = None ∧
    cr_resp (call_result call) = Some resp ∧
    json_Unmarshal (cr_body (call_result call)) = Ok items ∧
    convertLogsToString items = Ok events.

(** The response names a usable cursor: the first Link value that mentions
    next has two comma separated entries, the second a link marked as the
    next one, whose URL parses and carries a non-empty [after] parameter. *)
Definition usable_cursor `{GoLib} (resp : Response) (cursor : string) : Prop :=
  ∃ link self next whole target nextUrl more,
    find (λ v, strings_Contains v "next") (default [] (Header resp !! "Link")) = Some link ∧
    strings_Split link "," = [self; next] ∧
    re_FindStringSubmatch next = [whole; target] ∧
    url_Parse target = Ok nextUrl ∧
    url_Query nextUrl "after" = cursor :: more ∧
    cursor ≠ "".


(** The query parameters of a follow-up request. *)
Definition follow_up_params (startTime endTime cursor : string) : Values :=
  Values_Set (base_params startTime endTime) "after" cursor.

Module ExampleEmptyPage.
Import Examples.

(** a page without events whose links still name the cursor x *)
Definition page_none_more : Response :=
  {| StatusCode := 200; Status := "200 OK"; Header := {["Link" := [links_AB]]};
     Body := "[]"; BodyErr := None |}.

Definition empty_then_C : list (list Attempt) :=
  [[DoReturns page_none_more]; [DoReturns page_C]].
End ExampleEmptyPage.


Module ExampleLinks.
Import Examples.

(** the two links of [links_AB] in the other order: next first, self second *)
Definition links_next_first : string :=
  "<https://okta.example/api/v1/logs?after=x&limit=1000>; rel=" +:+ quoted "next" +:+
  ", <https://okta.example/api/v1/logs?limit=1000>; rel=" +:+ quoted "self".

Definition page_next_first : Response :=
  {| StatusCode := 200; Status := "200 OK"; Header := {["Link" := [links_next_first]]};
     Body := "[A,B]"; BodyErr := None |}.
End ExampleLinks.


(** The steps that copy the temp file to the outputs. *)
Definition is_copy_step (e : Event) : bool :=
  match e with
  | EvDrainWait _ | EvRotate | EvWriteToOutputs _ _ | EvRemove _ => true
  | _ => false
  end.

(** The client [getEvents] builds, and what [GetLogs] does for it in one
    turn of the poll loop. *)
Definition cycle_run `{GoLib}
    (GetLogs : OktaClient → string → string → list (list Attempt) → Run)
    (cfg : Config) (currentState : State) (env : CycleEnv) : Run :=
  GetLogs (NewClient (cfg_okta_domain cfg) (cfg_okta_api_key cfg))
    (LastPollTimestamp currentState) (Format_RFC3339 (env_now env)) (env_calls env).

(** The checkpoint a turn saves: the [now] that [getEvents] captured. *)
Definition checkpoint_of `{GoLib} (env : CycleEnv) : State :=
  {| LastPollTimestamp := Format_RFC3339 (env_now env) |}.

Module ExampleCycles.
Import Examples.

Definition cfg : Config :=
  {| cfg_okta_domain := "okta.example"; cfg_okta_api_key := "token";
     cfg_state_path := "okta.state" |}.

(** a window without events *)
Definition page_none : Response :=
  {| StatusCode := 200; Status := "200 OK"; Header := ∅; Body := "[]"; BodyErr := None |}.

Definition quiet : @CycleEnv SmallLib.lib :=
  @Build_CycleEnv SmallLib.lib "t1" [[DoReturns page_none]] [] "/tmp/okta.1" None None.

(** three events, a queue that is empty at the second look, and a sink
    that works or fails *)
Definition busy (write : option error) : @CycleEnv SmallLib.lib :=
  @Build_CycleEnv SmallLib.lib "t2" ExamplePages.two_pages [2%nat; 0%nat]
    "/tmp/okta.2" write None.


(** the same turn with working outputs and a temp file that cannot be removed *)
Definition busy_kept_file : @CycleEnv SmallLib.lib :=
  @Build_CycleEnv SmallLib.lib "t2" ExamplePages.two_pages [2%nat; 0%nat]
    "/tmp/okta.2" None (Some (errors_New "permission denied")).
End ExampleCycles.


(** The start of every turn: the log line and the fetch. *)
Definition fetched_trace `{GoLib}
    (GetLogs : OktaClient → string → string → list (list Attempt) → Run)
    (cfg : Config) (st : State) (env : CycleEnv) : list Event :=
  [EvLog "Getting data...";
   EvGetLogs (LastPollTimestamp st) (Format_RFC3339 (env_now env))
     (run_sent (cycle_run GetLogs cfg st env))].

(** The trace of a turn that copies the temp file and then saves. *)
Definition flushed_trace `{GoLib}
    (GetLogs : OktaClient → string → string → list (list Attempt) → Run)
    (cfg : Config) (seconds : Z) (st : State) (env : CycleEnv) (count : Z) : list Event :=
  fetched_trace GetLogs cfg st env ++ (drain (env_depths env)).1 ++
  [EvRotate;
   EvWriteToOutputs (env_last_file env) (Format_RFC3339 (env_now env));
   EvRemove (env_last_file env);
   EvProcessed count;
   EvSave (checkpoint_of env) (cfg_state_path cfg);
   EvAfter seconds].


Module ExampleSchedule.
(** all three sends first, then the consumer takes and writes each message *)
Definition sends_first : list Move :=
  [ProducerSends; ProducerSends; ProducerSends;
   ConsumerReceives; ConsumerWrites; ConsumerReceives; ConsumerWrites;
   ConsumerReceives; ConsumerWrites].
End ExampleSchedule.


(** The same vocabulary for the earlier revision. *)
Definition legacy_request `{GoLib} (oktaClient : OktaClient) (params : Values) : Request :=
  (ClientLegacy.conductRequest oktaClient "GET" "/api/v1/logs" params []).1.

Definition legacy_call `{GoLib} (script : list Attempt) : option Call :=
  (ClientLegacy.conductRequest (NewClient "" "") "GET" "/api/v1/logs" ∅ script).2.

(** A page of the earlier revision that came back whole. *)
Definition legacy_delivered `{GoLib} (script : list Attempt) (events : list string)
    (afterLink : string) : Prop :=
  ∃ call, legacy_call script = Some call ∧
          ClientLegacy.decode_events call = Ok events ∧
          ClientLegacy.offset_of call = Ret afterLink.


(** The pages after a cursor, as the [for afterLink != ""] loop of the
    earlier revision walks them: one page per non-empty cursor, until a
    page names none. Each page is its events and its cursor. *)
Fixpoint cursor_chain (afterLink : string) (pages : list (list string * string)) : Prop :=
  match pages with
  | [] => afterLink = ""
  | p :: pages' => afterLink ≠ "" ∧ cursor_chain p.2 pages'
  end.

Definition events_total (pages : list (list string * string)) : Z :=
  foldr (λ p n, len p.1 + n) 0 pages.


Module ExampleNoCursor.
Import Examples.

(** a next link whose URL has no [after] parameter *)
Definition links_without_after : string :=
  "<https://okta.example/api/v1/logs?limit=1000>; rel=" +:+ quoted "self" +:+
  ", <https://okta.example/api/v1/logs?limit=1000>; rel=" +:+ quoted "next".

Definition page_AB_last : Response :=
  {| StatusCode := 200; Status := "200 OK";
     Header := {["Link" := [links_without_after]]};
     Body := "[A,B]"; BodyErr := None |}.
End ExampleNoCursor.


(** The three steps of a page fetch that can fail, as the errors of
    [getLogsRequest] name them. *)
Definition page_error_prefixes : list string :=
  ["Error conducting request: ";
   "Error unmarshalling response body: ";
   "Error converting logs to strings: "].

Module ExampleSeparateLinks.
Import Examples.

(** the self link and the next link as two values of the Link header *)
Definition self_value : string :=
  "<https://okta.example/api/v1/logs?limit=1000>; rel=" +:+ quoted "self".
Definition next_value : string :=
  "<https://okta.example/api/v1/logs?after=x&limit=1000>; rel=" +:+ quoted "next".

Definition page_two_values : Response :=
  {| StatusCode := 200; Status := "200 OK";
     Header := {["Link" := [self_value; next_value]]};
     Body := "[A,B]"; BodyErr := None |}.
End ExampleSeparateLinks.


(** The fetch windows of a trace, in order: [since] and [until] of every
    call of [GetLogs]. *)
Definition windows (tr : list Event) : list (string * string) :=
  omap (λ e, match e with EvGetLogs since until _ => Some (since, until) | _ => None end) tr.

(** Windows laid end to end: each one starts where the one before ended. *)
Fixpoint window_chain (since : string) (untils : list string) : list (string * string) :=
  match untils with
  | [] => []
  | until :: untils' => (since, until) :: window_chain until untils'
  end.

(** The schedule that lets every message through before the next is sent. *)
Fixpoint one_by_one (n : nat) : list Move :=
  match n with
  | O => []
  | S n' => ProducerSends :: ConsumerReceives :: ConsumerWrites :: one_by_one n'
  end.


Module ExampleCli.
Definition settings (config : bool) : Settings :=
  {| set_schedule := 30; set_config := config;
     set_config_path := "/etc/okta-collector/config.json";
     set_okta_domain := "acme.okta.com"; set_okta_api_key := "ABC123" |}.

(** every path is an existing regular file; the config file names the same options *)
Definition env (config : bool) : CliEnv :=
  {| cli_bind := None; cli_settings := settings config;
     cli_stat := λ _, StatFile;
     cli_read_in_config := Ok (settings config);
     cli_state_validate := None; cli_outputs_validate := None |}.
End ExampleCli.


(** * Properties of the embedded program *)

(** ** Machine integers *)

Lemma int_wrap_small z : - 2 ^ 63 <= z < 2 ^ 63 → int_wrap z = z.
Proof.
  intros Hz. unfold int_wrap.
  rewrite Z.mod_small; lia.
Qed.

Lemma int_mul_small a b : - 2 ^ 63 <= a * b < 2 ^ 63 → int_mul a b = a * b.
Proof. apply int_wrap_small. Qed.

Lemma int_add_small a b : - 2 ^ 63 <= a + b < 2 ^ 63 → int_add a b = a + b.
Proof. apply int_wrap_small. Qed.

(** ** Retry and backoff *)

Lemma backoff_delay_0 : backoff_delay 0 = initialBackoffMS.
Proof. reflexivity. Qed.

Lemma backoff_delay_S k : backoff_delay (S k) = backoff_delay k * backoffFactor.
Proof.
  unfold backoff_delay. rewrite Nat2Z.inj_succ, Z.pow_succ_r by lia. ring.
Qed.

Lemma backoff_delay_pos k : 0 < backoff_delay k.
Proof.
  unfold backoff_delay, initialBackoffMS, backoffFactor.
  assert (0 < 2 ^ Z.of_nat k) by (apply Z.pow_pos_nonneg; lia). lia.
Qed.

Lemma backoff_delay_mono j k : (j ≤ k)%nat → backoff_delay j <= backoff_delay k.
Proof.
  induction 1 as [|k _ IH]; [lia|].
  rewrite backoff_delay_S. pose proof (backoff_delay_pos k).
  unfold backoffFactor. lia.
Qed.

Lemma backoff_delay_6 : backoff_delay 6 = 64000.
Proof. reflexivity. Qed.

Lemma backoff_delay_5 : backoff_delay 5 = maxBackoffMS.
Proof. reflexivity. Qed.

(** Up to the sixth, every delay is within the cap and doubling it does not
    leave the range of [int]. *)
Lemma backoff_delay_capped k : (k < 6)%nat → backoff_delay k <= maxBackoffMS.
Proof.
  intros Hk. rewrite <- backoff_delay_5. apply backoff_delay_mono. lia.
Qed.

Lemma backoff_delay_over k : (6 ≤ k)%nat → maxBackoffMS < backoff_delay k.
Proof.
  intros Hk. pose proof (backoff_delay_mono 6 k Hk) as Hm.
  rewrite backoff_delay_6 in Hm. unfold maxBackoffMS. lia.
Qed.

Lemma backoff_double k :
  (k < 6)%nat → int_mul (backoff_delay k) backoffFactor = backoff_delay (S k).
Proof.
  intros Hk. rewrite backoff_delay_S.
  pose proof (backoff_delay_capped k Hk). pose proof (backoff_delay_pos k).
  apply int_mul_small. unfold maxBackoffMS, backoffFactor in *. lia.
Qed.

Lemma backoff_delays_S n : backoff_delays (S n) = backoff_delays n ++ [backoff_delay n].
Proof. unfold backoff_delays. rewrite seq_S, fmap_app. reflexivity. Qed.

Lemma slept_all_nil c : slept_all [] c = c.
Proof. destruct c; reflexivity. Qed.

Lemma slept_all_snoc ds d c : slept_all (ds ++ [d]) c = slept_all ds (slept d c).
Proof. unfold slept_all, slept; simpl. rewrite <- app_assoc. reflexivity. Qed.

(** Case analysis on the status tests of the retry loops. *)
Ltac status_cases :=
  repeat match goal with
  | |- context [(?a =? ?b)] => destruct (Z.eqb_spec a b); simpl
  | |- context [(?a >? ?b)] => destruct (Z.gtb_spec a b); simpl
  | H : context [(?a =? ?b)] |- _ => destruct (Z.eqb_spec a b); simpl in H
  | H : context [(?a >? ?b)] |- _ => destruct (Z.gtb_spec a b); simpl in H
  end.

(** A rate-limit response met with a delay still within the cap is slept
    on, and the next turn runs with the doubled delay. *)
Lemma retry_loop_rate_limited k resp script :
  (k < 6)%nat → StatusCode resp = rateLimitHttpCode →
  Client.retry_loop (backoff_delay k) (DoReturns resp :: script)
  = slept (backoff_delay k) <$> Client.retry_loop (backoff_delay (S k)) script.
Proof.
  intros Hk Hs. pose proof (backoff_delay_capped k Hk).
  simpl. rewrite Hs, (backoff_double k Hk).
  unfold rateLimitHttpCode. status_cases; try lia. reflexivity.
Qed.

(** Past the cap, whatever comes back with status 200 or 429 is read and
    returned. *)
Lemma retry_loop_exhausted k resp script :
  (6 ≤ k)%nat → StatusCode resp = rateLimitHttpCode →
  Client.retry_loop (backoff_delay k) (DoReturns resp :: script)
  = Some (returned (Some resp) (Body resp) (BodyErr resp)).
Proof.
  intros Hk Hs. pose proof (backoff_delay_over k Hk).
  simpl. rewrite Hs. unfold rateLimitHttpCode.
  status_cases; try lia; reflexivity.
Qed.

Lemma retry_loop_limited k limited rest :
  (k + length limited ≤ 6)%nat →
  Forall (λ resp, StatusCode resp = rateLimitHttpCode) limited →
  Client.retry_loop (backoff_delay k) ((DoReturns <$> limited) ++ rest)
  = slept_all (backoff_delay <$> seq k (length limited))
      <$> Client.retry_loop (backoff_delay (k + length limited)) rest.
Proof.
  revert k. induction limited as [|resp limited IH]; intros k Hk Hall.
  - simpl. rewrite Nat.add_0_r.
    destruct (Client.retry_loop _ rest) as [c|]; simpl; [|done].
    by rewrite slept_all_nil.
  - inversion Hall as [|? ? Hs Hall']; subst. simpl length in *.
    rewrite fmap_cons, <- app_comm_cons.
    rewrite retry_loop_rate_limited by (done || lia).
    rewrite (IH (S k)) by (done || lia).
    replace (S k + length limited)%nat with (k + S (length limited))%nat by lia.
    destruct (Client.retry_loop _ rest) as [c|]; simpl; [|done].
    reflexivity.
Qed.

(** Whatever the script, the delays slept are an initial segment of the
    doubling sequence that stops at the cap. *)
Lemma retry_loop_sleeps k script call :
  (k ≤ 6)%nat →
  Client.retry_loop (backoff_delay k) script = Some call →
  ∃ n, (k + n ≤ 6)%nat ∧ call_sleeps call = backoff_delay <$> seq k n.
Proof.
  revert k call. induction script as [|a script IH]; intros k call Hk Hrun; [done|].
  destruct a as [e|e|resp]; simpl in Hrun.
  - exists 0%nat. inversion Hrun; subst. split; [lia|done].
  - exists 0%nat. inversion Hrun; subst. split; [lia|done].
  - destruct (negb (StatusCode resp =? 200) && negb (StatusCode resp =? rateLimitHttpCode)).
    { exists 0%nat. inversion Hrun; subst. split; [lia|done]. }
    destruct ((backoff_delay k >? maxBackoffMS) || negb (StatusCode resp =? rateLimitHttpCode))
      eqn:Hstop.
    { exists 0%nat. inversion Hrun; subst. split; [lia|done]. }
    apply orb_false_iff in Hstop as [Hcap _].
    assert (k < 6)%nat as Hk6.
    { destruct (decide (k < 6)%nat) as [|Hge]; [done|].
      pose proof (backoff_delay_over k ltac:(lia)). lia. }
    rewrite (backoff_double k Hk6) in Hrun.
    destruct (Client.retry_loop (backoff_delay (S k)) script) as [c|] eqn:Hrest; [|done].
    destruct (IH (S k) c ltac:(lia) Hrest) as (n & Hn & Hsl).
    exists (S n). simpl in Hrun. inversion Hrun; subst. simpl.
    split; [lia|]. by rewrite Hsl.
Qed.

(** C2. Within one retryable call, consecutive rate-limit responses are
    slept on with the delays 1000, 2000, 4000, ... ms,
    [initialBackoffMS * backoffFactor ^ (k - 1)] before re-attempt [k]; no
    delay slept exceeds [maxBackoffMS] = 32000 ms; and the seventh
    rate-limit response in a row, met when the doubled delay has passed the
    cap, is returned with its body read and without a further sleep. *)
Theorem backoff_schedule (req : Request) (limited : list Response) (rest : list Attempt) :
  Forall (λ resp, StatusCode resp = rateLimitHttpCode) limited →
  ((length limited ≤ 6)%nat →
     Client.makeRetryableHttpCall req ((DoReturns <$> limited) ++ rest)
     = slept_all (backoff_delays (length limited))
         <$> Client.retry_loop (backoff_delay (length limited)) rest) ∧
  (∀ resp7, limited !! 6%nat = Some resp7 →
     Client.makeRetryableHttpCall req ((DoReturns <$> limited) ++ rest)
     = Some {| call_result := {| cr_resp := Some resp7; cr_body := Body resp7;
                                 cr_err := BodyErr resp7 |};
               call_sleeps := [1000; 2000; 4000; 8000; 16000; 32000] |}) ∧
  (∀ call, Client.makeRetryableHttpCall req ((DoReturns <$> limited) ++ rest) = Some call →
     ∃ n, (n ≤ 6)%nat ∧ call_sleeps call = backoff_delays n ∧
          Forall (λ d, d <= maxBackoffMS) (call_sleeps call)).
Proof.
  intros Hall. unfold Client.makeRetryableHttpCall. split; [|split].
  - intros Hlen. change initialBackoffMS with (backoff_delay 0).
    apply (retry_loop_limited 0); [lia|done].
  - intros resp7 H7.
    rewrite <- (take_drop_middle limited 6 resp7 H7).
    rewrite fmap_app, fmap_cons, <- app_assoc, <- app_comm_cons.
    assert (length (take 6 limited) = 6%nat) as Hlen.
    { rewrite length_take. apply lookup_lt_Some in H7. lia. }
    change initialBackoffMS with (backoff_delay 0).
    rewrite (retry_loop_limited 0) by (rewrite ?Hlen; first [lia | by apply Forall_take]).
    rewrite Hlen. simpl plus.
    rewrite retry_loop_exhausted; [reflexivity | lia |].
    rewrite Forall_lookup in Hall. by apply (Hall 6%nat).
  - intros call Hrun. change initialBackoffMS with (backoff_delay 0) in Hrun.
    destruct (retry_loop_sleeps 0 _ call ltac:(lia) Hrun) as (n & Hn & Hsl).
    exists n. split; [lia|]. split; [done|].
    rewrite Hsl. apply Forall_fmap, Forall_forall. intros k Hk.
    apply elem_of_seq in Hk. simpl. apply backoff_delay_capped. lia.
Qed.

Lemma backoff_schedule_witness :
  Forall (λ resp, StatusCode resp = rateLimitHttpCode)
    (replicate 7 Examples.too_many_requests) ∧
  Client.makeRetryableHttpCall Examples.get_logs
    ((DoReturns <$> replicate 7 Examples.too_many_requests) ++ [DoReturns Examples.page_C])
  = Some {| call_result := {| cr_resp := Some Examples.too_many_requests; cr_body := "{}";
                              cr_err := None |};
            call_sleeps := [1000; 2000; 4000; 8000; 16000; 32000] |}.
Proof.
  assert (Forall (λ resp, StatusCode resp = rateLimitHttpCode)
            (replicate 7 Examples.too_many_requests)) as Hall.
  { repeat constructor. }
  split; [exact Hall|].
  exact (proj1 (proj2 (backoff_schedule Examples.get_logs _
                         [DoReturns Examples.page_C] Hall))
           Examples.too_many_requests eq_refl).
Defined.

(** ** Status codes *)

Section ClientPages.
Context `{GoLib}.

Lemma getLogsRequest_page oktaClient params afterLink script :
  (Client.getLogsRequest oktaClient params afterLink script).2 = fetch_page script.
Proof. reflexivity. Qed.

Lemma getLogsRequest_params oktaClient params afterLink script :
  (Client.getLogsRequest oktaClient params afterLink script).1.1
  = if negb (afterLink =? "")%string then Values_Set params "after" afterLink else params.
Proof. reflexivity. Qed.

Lemma getLogsRequest_request oktaClient params afterLink script :
  (Client.getLogsRequest oktaClient params afterLink script).1.2
  = (Client.conductRequest oktaClient "GET" "/api/v1/logs"
       (Client.getLogsRequest oktaClient params afterLink script).1.1 script).1.
Proof. reflexivity. Qed.
End ClientPages.

(** C3. A response whose status is neither 200 nor 429 ends the call at
    once with an error made of its status line: no body is read, nothing is
    slept and the rest of the script is not consulted, at whatever point of
    the retry loop it arrives; the page fetch that made the call fails with
    that error. A 200 response ends the call with the body that was read
    (and no error other than one of reading that body). *)
Theorem unexpected_status_is_fatal `{GoLib} (backoffMs : Z) (resp : Response) (rest : list Attempt) :
  StatusCode resp ≠ 200 → StatusCode resp ≠ rateLimitHttpCode →
  Client.retry_loop backoffMs (DoReturns resp :: rest)
  = Some {| call_result := {| cr_resp := Some resp; cr_body := "";
                              cr_err := Some (status_error resp) |};
            call_sleeps := [] |} ∧
  fetch_page (DoReturns resp :: rest)
  = Some (Ret (page_failed "Error conducting request: " (status_error resp))) ∧
  (∀ ok, StatusCode ok = 200 →
     Client.retry_loop backoffMs (DoReturns ok :: rest)
     = Some {| call_result := {| cr_resp := Some ok; cr_body := Body ok;
                                 cr_err := BodyErr ok |};
               call_sleeps := [] |}).
Proof.
  intros H200 H429.
  assert (∀ b, Client.retry_loop b (DoReturns resp :: rest)
               = Some (returned (Some resp) "" (Some (status_error resp)))) as Hfail.
  { intros b. simpl. status_cases; try lia; reflexivity. }
  split; [apply Hfail|]. split.
  - unfold fetch_page, Client.getLogsRequest, Client.conductRequest,
      Client.makeRetryableHttpCall.
    cbn [negb String.eqb snd]. rewrite Hfail. reflexivity.
  - intros ok Hok. simpl. rewrite Hok. unfold rateLimitHttpCode.
    status_cases; try lia; reflexivity.
Qed.

Lemma unexpected_status_is_fatal_witness :
  StatusCode Examples.internal_error ≠ 200 ∧
  StatusCode Examples.internal_error ≠ rateLimitHttpCode ∧
  Client.retry_loop 4000 [DoReturns Examples.internal_error; DoReturns Examples.page_C]
  = Some {| call_result :=
              {| cr_resp := Some Examples.internal_error; cr_body := "";
                 cr_err := Some (status_error Examples.internal_error) |};
            call_sleeps := [] |}.
Proof.
  assert (StatusCode Examples.internal_error ≠ 200) as H200 by (vm_compute; discriminate).
  assert (StatusCode Examples.internal_error ≠ rateLimitHttpCode) as H429
    by (vm_compute; discriminate).
  split; [exact H200|]. split; [exact H429|].
  exact (proj1 (@unexpected_status_is_fatal SmallLib.lib 4000 Examples.internal_error
                  [DoReturns Examples.page_C] H200 H429)).
Defined.

(** ** Pagination *)

Section ClientPagination.
Context `{GoLib}.

Lemma GetLogs_loop_nil oktaClient params count afterLink :
  Client.GetLogs_loop oktaClient params count afterLink []
  = run_end Pending (logs_request oktaClient (next_params params afterLink)) [].
Proof. reflexivity. Qed.

(** One turn of the loop, in terms of the page it fetched. *)
Lemma GetLogs_loop_cons oktaClient params count afterLink script calls :
  Client.GetLogs_loop oktaClient params count afterLink (script :: calls)
  = let params := next_params params afterLink in
    let req := logs_request oktaClient params in
    match fetch_page script with
    | None => run_end Pending req []
    | Some (Panic msg) => run_end (Crashed msg) req []
    | Some (Ret p) =>
        match page_err p with
        | Some err => run_end (Returned (-1) (Some err)) req []
        | None =>
            let sent := pretty_Ugly <$> page_events p in
            let count := int_add count (len (page_events p)) in
            if (page_after p =? "")%string
            then run_end (Returned count None) req sent
            else run_then req sent
                   (Client.GetLogs_loop oktaClient params count (page_after p) calls)
        end
    end.
Proof. reflexivity. Qed.

Lemma GetLogs_unfold oktaClient startTime endTime calls :
  Client.GetLogs oktaClient startTime endTime calls
  = Client.GetLogs_loop oktaClient (base_params startTime endTime) 0 "" calls.
Proof. reflexivity. Qed.

(** Every turn of the loop issues its request before anything else. *)
Lemma GetLogs_loop_first_request oktaClient params count afterLink calls :
  head (run_requests (Client.GetLogs_loop oktaClient params count afterLink calls))
  = Some (logs_request oktaClient (next_params params afterLink)).
Proof.
  destruct calls as [|script calls]; [done|].
  rewrite GetLogs_loop_cons. cbv zeta.
  destruct (fetch_page script) as [[p|msg]|]; try done.
  destruct (page_err p); [done|].
  destruct (page_after p =? "")%string; done.
Qed.
End ClientPagination.

Lemma len_nonneg {A} (l : list A) : 0 <= len l.
Proof. unfold len. lia. Qed.

Lemma records_total_nonneg pages : 0 <= records_total pages.
Proof.
  induction pages as [|p pages IH]; simpl; [lia|].
  pose proof (len_nonneg (page_events p)). lia.
Qed.

Lemma records_total_app ps qs : records_total (ps ++ qs) = records_total ps + records_total qs.
Proof. induction ps as [|p ps IH]; simpl; lia. Qed.

Section ClientDelivered.
Context `{GoLib}.

Lemma messages_cons p pages :
  messages (p :: pages) = (pretty_Ugly <$> page_events p) ++ messages pages.
Proof. reflexivity. Qed.

(** A run over pages that all came back whole, the last one without a
    cursor: the loop returns after that page with the total count, has sent
    the pages' events in order and has issued one request per page. *)
Lemma GetLogs_loop_delivered oktaClient params count afterLink
    calls pages last_script last rest :
  Forall2 (λ script p, delivered script p ∧ page_after p ≠ "") calls pages →
  delivered last_script last → page_after last = "" →
  0 <= count → count + records_total (pages ++ [last]) < 2 ^ 63 →
  let run := Client.GetLogs_loop oktaClient params count afterLink
               (calls ++ last_script :: rest) in
  run_outcome run = Returned (count + records_total (pages ++ [last])) None ∧
  run_sent run = messages (pages ++ [last]) ∧
  length (run_requests run) = S (length calls).
Proof.
  intros Hpages [Hlast Hok] Hend. revert params count afterLink.
  induction Hpages as [|script p calls pages [[Hp Hpok] Hmore] _ IH];
    intros params count afterLink Hcount Hbound; cbv zeta.
  - simpl app in *. rewrite GetLogs_loop_cons. cbv zeta.
    rewrite Hlast, Hok, Hend. simpl.
    rewrite int_add_small by (pose proof (len_nonneg (page_events last)); simpl in Hbound; lia).
    unfold messages. simpl. rewrite app_nil_r, Z.add_0_r. done.
  - rewrite <- !app_comm_cons in *. rewrite GetLogs_loop_cons. cbv zeta.
    rewrite Hp, Hpok. apply String.eqb_neq in Hmore. rewrite Hmore.
    simpl in Hbound.
    pose proof (len_nonneg (page_events p)).
    pose proof (records_total_nonneg (pages ++ [last])).
    rewrite int_add_small by lia.
    destruct (IH (next_params params afterLink) (count + len (page_events p))
                (page_after p) ltac:(lia) ltac:(lia)) as (Hout & Hsent & Hlen).
    unfold run_then. cbn [run_outcome run_sent run_requests].
    rewrite Hout, Hsent, messages_cons. cbn [length].
    change (records_total (p :: pages ++ [last]))
      with (len (page_events p) + records_total (pages ++ [last])).
    rewrite Hlen, Z.add_assoc. done.
Qed.
End ClientDelivered.

(** C4. Over any finite sequence of pages that all come back whole, every
    page but the last naming a cursor and the last naming none, [GetLogs]
    returns (it neither waits for more of the script, nor crashes) with no
    error and with the sum of the pages' record counts, having issued one
    request per page; the sum is assumed to fit Go's [int]. *)
Theorem GetLogs_returns_total `{GoLib} (oktaClient : OktaClient) (startTime endTime : string)
    (calls : list (list Attempt)) (pages : list Page)
    (last_script : list Attempt) (last : Page) (rest : list (list Attempt)) :
  Forall2 (λ script p, delivered script p ∧ page_after p ≠ "") calls pages →
  delivered last_script last → page_after last = "" →
  records_total (pages ++ [last]) < 2 ^ 63 →
  let run := Client.GetLogs oktaClient startTime endTime (calls ++ last_script :: rest) in
  run_outcome run = Returned (records_total (pages ++ [last])) None ∧
  length (run_requests run) = length (pages ++ [last]).
Proof.
  intros Hpages Hlast Hend Hbound. cbv zeta. rewrite GetLogs_unfold.
  destruct (GetLogs_loop_delivered oktaClient (base_params startTime endTime) 0 ""
              calls pages last_script last rest Hpages Hlast Hend ltac:(lia) ltac:(lia))
    as (Hout & _ & Hlen).
  rewrite Hout, Hlen, length_app. simpl.
  rewrite (Forall2_length _ _ _ Hpages). split; [done|lia].
Qed.

Lemma GetLogs_returns_total_witness :
  Forall2 (λ script p, @delivered SmallLib.lib script p ∧ page_after p ≠ "")
    [[DoReturns Examples.page_AB]] [ExamplePages.first] ∧
  @delivered SmallLib.lib [DoReturns Examples.page_C] ExamplePages.second ∧
  run_outcome (@Client.GetLogs SmallLib.lib Examples.oktaClient "t0" "t1" ExamplePages.two_pages)
  = Returned 3 None.
Proof.
  assert (Forall2 (λ script p, @delivered SmallLib.lib script p ∧ page_after p ≠ "")
            [[DoReturns Examples.page_AB]] [ExamplePages.first]) as Hpages.
  { repeat constructor. vm_compute. discriminate. }
  assert (@delivered SmallLib.lib [DoReturns Examples.page_C] ExamplePages.second) as Hlast.
  { split; reflexivity. }
  split; [exact Hpages|]. split; [exact Hlast|].
  exact (proj1 (@GetLogs_returns_total SmallLib.lib Examples.oktaClient "t0" "t1"
                  [[DoReturns Examples.page_AB]] [ExamplePages.first]
                  [DoReturns Examples.page_C] ExamplePages.second []
                  Hpages Hlast eq_refl eq_refl)).
Defined.

(** ** Errors *)

Section ClientErrors.
Context `{GoLib}.

Lemma GetLogs_loop_error oktaClient params count afterLink calls n err :
  run_outcome (Client.GetLogs_loop oktaClient params count afterLink calls)
  = Returned n (Some err) → n = -1.
Proof.
  revert params count afterLink.
  induction calls as [|script calls IH]; intros params count afterLink; [done|].
  rewrite GetLogs_loop_cons. cbv zeta.
  destruct (fetch_page script) as [[p|msg]|]; try done.
  destruct (page_err p); [by inversion 1|].
  destruct (page_after p =? "")%string; [done|].
  apply IH.
Qed.
End ClientErrors.

(** C10. Whenever [GetLogs] returns an error, on whichever page the
    request, the decoding of the body or the conversion of a record failed,
    the count it returns is -1; the messages of the pages before are
    already on the channel by then (see the example below). *)
Theorem GetLogs_error_count `{GoLib} (oktaClient : OktaClient) (startTime endTime : string)
    (calls : list (list Attempt)) (count : Z) (err : error) :
  run_outcome (Client.GetLogs oktaClient startTime endTime calls) = Returned count (Some err) →
  count = -1.
Proof. rewrite GetLogs_unfold. apply GetLogs_loop_error. Qed.

Lemma GetLogs_error_count_witness :
  ∃ count err,
    run_outcome (@Client.GetLogs SmallLib.lib Examples.oktaClient "t0" "t1"
                   ExamplePages.broken_second) = Returned count (Some err) ∧
    run_sent (@Client.GetLogs SmallLib.lib Examples.oktaClient "t0" "t1"
                ExamplePages.broken_second) = ["A"; "B"] ∧
    count = -1.
Proof.
  eexists _, _. split; [reflexivity|]. split; [reflexivity|].
  exact (@GetLogs_error_count SmallLib.lib Examples.oktaClient "t0" "t1"
           ExamplePages.broken_second _ _ eq_refl).
Defined.

(** ** Cursors *)

Lemma re_FindStringSubmatch_shape s :
  re_FindStringSubmatch s = [] ∨ ∃ whole group, re_FindStringSubmatch s = [whole; group].
Proof.
  induction s as [|c s IH]; [by left|]. simpl.
  destruct (if Ascii.eqb c re_open then re_group s else None); [right; eauto|done].
Qed.

Section Cursor.
Context `{GoLib}.

Lemma getResultsOffset_range_usable links cursor :
  getResultsOffset_range links = Ret cursor ∧ cursor ≠ "" ↔
  ∃ link self next whole target nextUrl more,
    find (λ v, strings_Contains v "next") links = Some link ∧
    strings_Split link "," = [self; next] ∧
    re_FindStringSubmatch next = [whole; target] ∧
    url_Parse target = Ok nextUrl ∧
    url_Query nextUrl "after" = cursor :: more ∧
    cursor ≠ "".
Proof.
  induction links as [|v links IH]; simpl.
  { split; [intros [[= <-] Hne]; done | intros (? & ? & ? & ? & ? & ? & ? & [=] & _)]. }
  destruct (strings_Contains v "next"); [|exact IH].
  split.
  - intros [Hret Hne].
    destruct (strings_Split v ",") as [|self [|next [|more_entries s]]] eqn:Hs;
      simpl in Hret; try (inversion Hret; congruence).
    destruct (re_FindStringSubmatch_shape next) as [Hm|(whole & target & Hm)];
      rewrite Hm in Hret; simpl in Hret; [done|].
    destruct (url_Parse target) as [nextUrl|e] eqn:Hparse; [|done].
    destruct (url_Query nextUrl "after") as [|after0 more] eqn:Hq;
      [inversion Hret; congruence|].
    inversion Hret; subst.
    exists v, self, next, whole, target, nextUrl, more. done.
  - intros (link & self & next & whole & target & nextUrl & more
            & [= <-] & Hs & Hm & Hparse & Hq & Hne).
    rewrite Hs. simpl. rewrite Hm. simpl. rewrite Hparse, Hq. done.
Qed.

(** [getResultsOffset] returns a non-empty cursor exactly for the
    responses that name a usable one. *)
Lemma getResultsOffset_usable resp cursor :
  getResultsOffset resp = Ret cursor ∧ cursor ≠ "" ↔ usable_cursor resp cursor.
Proof. apply getResultsOffset_range_usable. Qed.

Lemma fetch_page_received script resp events :
  page_received script resp events →
  fetch_page script
  = Some match getResultsOffset resp with
         | Panic msg => Panic msg
         | Ret newAfterLink =>
             Ret {| page_events := events; page_after := newAfterLink; page_err := None |}
         end.
Proof.
  intros (call & items & Hcall & Herr & Hresp & Hitems & Hevents).
  unfold fetch_page, Client.getLogsRequest, Client.conductRequest,
    Client.makeRetryableHttpCall.
  cbn [negb String.eqb snd]. rewrite Hcall. cbn [fmap option_fmap option_map].
  rewrite !Herr, Hitems, Hevents, Hresp. reflexivity.
Qed.
End Cursor.

Section ClientNextRequest.
Context `{GoLib}.

Lemma GetLogs_loop_requests_nonempty oktaClient params count afterLink calls :
  (0 < length (run_requests (Client.GetLogs_loop oktaClient params count afterLink calls)))%nat.
Proof.
  pose proof (GetLogs_loop_first_request oktaClient params count afterLink calls) as Hhd.
  destruct (run_requests _); [done|simpl; lia].
Qed.

(** After a received page, a further request is issued exactly when
    [getResultsOffset] returned a non-empty cursor; otherwise the run ends
    with that page. *)
Lemma GetLogs_loop_next oktaClient params count afterLink calls i script resp events :
  calls !! i = Some script →
  page_received script resp events →
  let run := Client.GetLogs_loop oktaClient params count afterLink calls in
  (i < length (run_requests run))%nat →
  ((S i < length (run_requests run))%nat ↔
     ∃ cursor, getResultsOffset resp = Ret cursor ∧ cursor ≠ "") ∧
  (getResultsOffset resp = Ret "" →
     length (run_requests run) = S i ∧ ∃ total, run_outcome run = Returned total None).
Proof.
  cbv zeta. revert i params count afterLink.
  induction calls as [|script0 calls IH]; intros i params count afterLink Hi Hrecv; [done|].
  rewrite GetLogs_loop_cons. cbv zeta. destruct i as [|i]; simpl in Hi.
  - inversion Hi; subst script0. rewrite (fetch_page_received _ _ _ Hrecv).
    destruct (getResultsOffset resp) as [cursor|msg]; simpl.
    + destruct (String.eqb_spec cursor "") as [->|Hne]; simpl.
      * intros _. split; [|eauto].
        split; [lia | intros (c & [= <-] & Hc); done].
      * pose proof (GetLogs_loop_requests_nonempty oktaClient
                      (next_params params afterLink)
                      (int_add count (len events)) cursor calls).
        intros _. split; [|intros [= ->]; done].
        split; [eauto | lia].
    + intros _. split; [|done].
      split; [lia | intros (c & [=] & _)].
  - destruct (fetch_page script0) as [[p|msg]|]; simpl; try lia.
    destruct (page_err p); simpl; [lia|].
    destruct (page_after p =? "")%string; simpl; [lia|].
    intros Hlt.
    destruct (IH i (next_params params afterLink) (int_add count (len (page_events p)))
                (page_after p) Hi Hrecv ltac:(lia)) as [Hiff Hend].
    split.
    + rewrite <- Hiff. lia.
    + intros Hnone. destruct (Hend Hnone) as [Hlen Hout]. by rewrite Hlen.
Qed.

(** The request that follows a page carries that page's cursor under
    [after], next to the three parameters of the first request. *)
Lemma GetLogs_loop_follow_up oktaClient base params count afterLink calls i script p req :
  (∀ cursor, Values_Set params "after" cursor = Values_Set base "after" cursor) →
  calls !! i = Some script →
  fetch_page script = Some (Ret p) →
  run_requests (Client.GetLogs_loop oktaClient params count afterLink calls) !! S i = Some req →
  req = logs_request oktaClient (Values_Set base "after" (page_after p)) ∧ page_after p ≠ "".
Proof.
  revert i params count afterLink.
  induction calls as [|script0 calls IH]; intros i params count afterLink Hinv Hi Hp; [done|].
  assert (∀ cursor, Values_Set (next_params params afterLink) "after" cursor
                    = Values_Set base "after" cursor) as Hinv'.
  { intros cursor. unfold next_params.
    destruct (negb (afterLink =? "")%string); [|apply Hinv].
    unfold Values_Set. rewrite insert_insert_eq. apply Hinv. }
  rewrite GetLogs_loop_cons. cbv zeta. destruct i as [|i]; simpl in Hi.
  - inversion Hi; subst script0. rewrite Hp.
    destruct (page_err p); [done|].
    destruct (String.eqb_spec (page_after p) "") as [|Hne]; [done|].
    simpl. intros Hreq.
    pose proof (GetLogs_loop_first_request oktaClient (next_params params afterLink)
                  (int_add count (len (page_events p))) (page_after p) calls) as Hhd.
    rewrite head_lookup, Hreq in Hhd. inversion Hhd; subst.
    unfold next_params at 1. apply String.eqb_neq in Hne. rewrite Hne. simpl.
    rewrite Hinv'. apply String.eqb_neq in Hne. done.
  - destruct (fetch_page script0) as [[p0|msg]|]; try done.
    destruct (page_err p0); [done|].
    destruct (page_after p0 =? "")%string; [done|].
    simpl. apply IH; done.
Qed.
End ClientNextRequest.



(** C8. Every follow-up request of a fetch is a GET of [/api/v1/logs] whose
    query is the encoding of four parameters: [after], holding the cursor
    that [getResultsOffset] took from the next link of the response before,
    and [limit], [since] and [until] as in the first request. *)
Theorem follow_up_carries_cursor `{GoLib} (oktaClient : OktaClient) (startTime endTime : string)
    (calls : list (list Attempt)) (i : nat) (script : list Attempt)
    (resp : Response) (events : list string) (req : Request) :
  calls !! i = Some script →
  page_received script resp events →
  run_requests (Client.GetLogs oktaClient startTime endTime calls) !! S i = Some req →
  ∃ cursor,
    getResultsOffset resp = Ret cursor ∧ usable_cursor resp cursor ∧
    req_method req = "GET" ∧
    req_url req = {| Scheme := "https"; Host := Domain oktaClient; Path := "/api/v1/logs";
                     RawQuery := Values_Encode (follow_up_params startTime endTime cursor) |} ∧
    follow_up_params startTime endTime cursor !! "after" = Some [cursor] ∧
    follow_up_params startTime endTime cursor !! "limit" = Some [limit] ∧
    follow_up_params startTime endTime cursor !! "since" = Some [startTime] ∧
    follow_up_params startTime endTime cursor !! "until" = Some [endTime].
Proof.
  intros Hi Hrecv Hreq. rewrite GetLogs_unfold in Hreq.
  pose proof (fetch_page_received _ _ _ Hrecv) as Hpage.
  destruct (getResultsOffset resp) as [cursor|msg] eqn:Hoff.
  - destruct (GetLogs_loop_follow_up oktaClient (base_params startTime endTime)
                (base_params startTime endTime) 0 "" calls i script _ req
                ltac:(done) Hi Hpage Hreq) as [-> Hne].
    simpl in Hne. exists cursor. split; [done|].
    split; [apply getResultsOffset_usable; by rewrite Hoff|].
    split; [reflexivity|]. split; [reflexivity|].
    unfold follow_up_params, base_params, Values_Set.
    repeat split; by simplify_map_eq.
  - exfalso.
    destruct (GetLogs_loop_next oktaClient (base_params startTime endTime) 0 "" calls i
                script resp events Hi Hrecv) as [Hiff _].
    { apply lookup_lt_Some in Hreq. lia. }
    apply lookup_lt_Some in Hreq. apply Hiff in Hreq as (c & Hc & _).
    rewrite Hoff in Hc. done.
Qed.

Lemma follow_up_carries_cursor_witness :
  @page_received SmallLib.lib [DoReturns Examples.page_AB] Examples.page_AB ["A"; "B"] ∧
  ∃ req cursor,
    run_requests (@Client.GetLogs SmallLib.lib Examples.oktaClient "t0" "t1"
                    ExamplePages.two_pages) !! 1%nat = Some req ∧
    @getResultsOffset SmallLib.lib Examples.page_AB = Ret cursor ∧
    RawQuery (req_url req)
    = @Values_Encode SmallLib.lib (follow_up_params "t0" "t1" cursor) ∧
    RawQuery (req_url req) = "after=x&limit=1000&since=t0&until=t1".
Proof.
  assert (@page_received SmallLib.lib [DoReturns Examples.page_AB] Examples.page_AB
            ["A"; "B"]) as Hrecv.
  { eexists _, _. repeat split; reflexivity. }
  split; [exact Hrecv|].
  destruct (@follow_up_carries_cursor SmallLib.lib Examples.oktaClient "t0" "t1"
              ExamplePages.two_pages 0 _ _ _ _ eq_refl Hrecv eq_refl)
    as (cursor & Hoff & _ & _ & Hurl & _).
  eexists _, cursor. split; [reflexivity|]. split; [exact Hoff|].
  split; [by rewrite Hurl|].
  vm_compute. reflexivity.
Defined.

(** ** Link headers that [getResultsOffset] does not expect *)

Section Unexpected.
Context `{GoLib}.

(** What is guarded: no Link header, no value that mentions next, and a
    value that does not split into exactly two entries all give the empty
    cursor. *)
Lemma getResultsOffset_no_header resp :
  Header resp !! "Link" = None → getResultsOffset resp = Ret "".
Proof. unfold getResultsOffset. by intros ->. Qed.

Lemma getResultsOffset_range_no_mention links :
  Forall (λ v, strings_Contains v "next" = false) links →
  getResultsOffset_range links = Ret "".
Proof. induction 1 as [|v links Hv _ IH]; simpl; [done|]. by rewrite Hv. Qed.

Lemma getResultsOffset_range_entries v links :
  strings_Contains v "next" = true →
  length (strings_Split v ",") ≠ 2%nat →
  getResultsOffset_range (v :: links) = Ret "".
Proof.
  intros Hv Hlen. simpl. rewrite Hv.
  apply Nat.eqb_neq in Hlen. by rewrite Hlen.
Qed.

(** What is not: a second entry that the expression does not match, and a
    link target that [url.Parse] refuses. *)
Lemma getResultsOffset_range_unmatched v self next links :
  strings_Contains v "next" = true →
  strings_Split v "," = [self; next] →
  re_FindStringSubmatch next = [] →
  getResultsOffset_range (v :: links) = Panic "index out of range [1] with length 0".
Proof. intros Hv Hs Hm. simpl. by rewrite Hv, Hs; simpl; rewrite Hm. Qed.

Lemma getResultsOffset_range_unparsable v self next whole target e links :
  strings_Contains v "next" = true →
  strings_Split v "," = [self; next] →
  re_FindStringSubmatch next = [whole; target] →
  url_Parse target = Err e →
  getResultsOffset_range (v :: links)
  = Panic "invalid memory address or nil pointer dereference".
Proof. intros Hv Hs Hm Hp. simpl. by rewrite Hv, Hs; simpl; rewrite Hm; simpl; rewrite Hp. Qed.
End Unexpected.

(** C6. A response whose Link value lists the next link before the self
    link mentions next and has two entries, but its second entry is not
    matched by the expression: [match[1]] is out of range, so
    [getResultsOffset] panics instead of returning the empty cursor, and
    with it [GetLogs]. *)
Theorem getResultsOffset_panics_on_unmatched_entry :
  (∀ L : GoLib, @getResultsOffset L ExampleLinks.page_next_first
                = Panic "index out of range [1] with length 0") ∧
  run_outcome (@Client.GetLogs SmallLib.lib Examples.oktaClient "t0" "t1"
                 [[DoReturns ExampleLinks.page_next_first]])
  = Crashed "index out of range [1] with length 0".
Proof. split; [intros L|]; reflexivity. Qed.

(** ** Order of the records *)

Section ClientOrder.
Context `{GoLib}.

(** [convertLogsToString] keeps the items in their order: event [i] is
    the serialisation of item [i]. *)
Lemma convertLogsToString_order items events :
  convertLogsToString items = Ok events →
  Forall2 (λ item event, json_Marshal item = Ok event) items events.
Proof.
  revert events. induction items as [|val items IH]; intros events; simpl.
  - intros [= <-]. constructor.
  - destruct (json_Marshal val) as [plain|e] eqn:Hval; [|done].
    destruct (convertLogsToString items) as [data|e]; [|done].
    intros [= <-]. constructor; [done|]. by apply IH.
Qed.

(** The messages of a delivered run do not depend on the count. *)
Lemma GetLogs_loop_sent oktaClient params count afterLink
    calls pages last_script last rest :
  Forall2 (λ script p, delivered script p ∧ page_after p ≠ "") calls pages →
  delivered last_script last → page_after last = "" →
  run_sent (Client.GetLogs_loop oktaClient params count afterLink
              (calls ++ last_script :: rest))
  = messages (pages ++ [last]).
Proof.
  intros Hpages [Hlast Hok] Hend. revert params count afterLink.
  induction Hpages as [|script p calls pages [[Hp Hpok] Hmore] _ IH];
    intros params count afterLink.
  - simpl app. rewrite GetLogs_loop_cons. cbv zeta.
    rewrite Hlast, Hok, Hend. unfold messages. simpl. by rewrite app_nil_r.
  - rewrite <- !app_comm_cons. rewrite GetLogs_loop_cons. cbv zeta.
    rewrite Hp, Hpok. apply String.eqb_neq in Hmore. rewrite Hmore.
    unfold run_then. cbn [run_sent]. by rewrite IH, messages_cons.
Qed.
(** Whatever happens later in the run, the pages that came back whole
    and named a cursor have been sent first, in their order. *)
Lemma GetLogs_loop_sent_prefix oktaClient params count afterLink calls pages rest :
  Forall2 (λ script p, delivered script p ∧ page_after p ≠ "") calls pages →
  ∃ later,
    run_sent (Client.GetLogs_loop oktaClient params count afterLink (calls ++ rest))
    = messages pages ++ later.
Proof.
  intros Hpages. revert params count afterLink.
  induction Hpages as [|script p calls pages [[Hp Hpok] Hmore] _ IH];
    intros params count afterLink.
  - by eexists.
  - rewrite <- !app_comm_cons. rewrite GetLogs_loop_cons. cbv zeta.
    rewrite Hp, Hpok. apply String.eqb_neq in Hmore. rewrite Hmore.
    destruct (IH (next_params params afterLink) (int_add count (len (page_events p)))
                (page_after p)) as [later Hlater].
    exists later. unfold run_then. cbn [run_sent].
    by rewrite Hlater, messages_cons, app_assoc.
Qed.
End ClientOrder.

(** Every move keeps the messages in one line: written, taken, queued,
    still to send. *)
Lemma pl_move_order capacity mv p :
  pl_enqueued (pl_move capacity mv p) ++ pl_unsent (pl_move capacity mv p)
  = pl_enqueued p ++ pl_unsent p.
Proof.
  unfold pl_enqueued, pl_move.
  destruct p as [unsent queue taken file [|]]; [|done]. destruct mv; simpl.
  - destruct unsent as [|m unsent]; [done|].
    destruct (length queue <? capacity)%nat; [|done].
    simpl. by rewrite <- !app_assoc.
  - destruct taken as [m'|], queue as [|m queue]; try done.
  - destruct taken as [m|]; [|done]. simpl. by rewrite <- !app_assoc.
  - by destruct taken.
Qed.

Lemma pl_run_order capacity schedule p :
  pl_enqueued (pl_run capacity schedule p) ++ pl_unsent (pl_run capacity schedule p)
  = pl_enqueued p ++ pl_unsent p.
Proof.
  revert p. induction schedule as [|mv schedule IH]; intros p; [done|].
  unfold pl_run in *. simpl. rewrite IH. apply pl_move_order.
Qed.

(** The channel never holds more than its capacity. *)
Lemma pl_run_bounded capacity schedule p :
  (length (pl_queue p) ≤ capacity)%nat →
  (length (pl_queue (pl_run capacity schedule p)) ≤ capacity)%nat.
Proof.
  revert p. induction schedule as [|mv schedule IH]; intros p Hp; [done|].
  unfold pl_run in *. simpl. apply IH.
  unfold pl_move. destruct p as [unsent queue taken file [|]]; [|done].
  destruct mv; simpl in *.
  - destruct unsent as [|m unsent]; [done|].
    destruct (Nat.ltb_spec (length queue) capacity); simpl; [|done].
    rewrite length_app. simpl. lia.
  - destruct taken, queue; simpl in *; lia.
  - destruct taken; simpl; lia.
  - destruct taken; simpl; lia.
Qed.

(** C9. The messages [GetLogs] pushes onto the channel are the events of
    the pages in fetch order, each page's events in the order of the items
    of its JSON array: the pages received so far have been sent first,
    whatever happens later in the run, and a run that ends on a page
    without cursor has sent exactly the events of its pages. Under every
    interleaving of the sender with the consumer, what has been written to
    the temp file, then the message in the consumer's hand, then the queue,
    then the unsent rest is that same sequence, so the file is written in
    enqueue order and holds exactly the sent messages once everything is
    drained. *)
Theorem order_preserved `{GoLib} (oktaClient : OktaClient) (startTime endTime : string)
    (calls : list (list Attempt)) (pages : list Page) (rest : list (list Attempt)) :
  Forall2 (λ script p, delivered script p ∧ page_after p ≠ "") calls pages →
  let run := Client.GetLogs oktaClient startTime endTime (calls ++ rest) in
  (∃ later, run_sent run = messages pages ++ later) ∧
  (∀ last_script last rest',
     rest = last_script :: rest' → delivered last_script last → page_after last = "" →
     run_sent run = messages (pages ++ [last])) ∧
  (∀ items events, convertLogsToString items = Ok events →
     Forall2 (λ item event, json_Marshal item = Ok event) items events) ∧
  (∀ schedule,
     let pl := pl_run maxMessages schedule (pl_start (run_sent run)) in
     pl_file pl ++ option_list (pl_taken pl) ++ pl_queue pl ++ pl_unsent pl = run_sent run ∧
     (pl_unsent pl = [] → pl_queue pl = [] → pl_taken pl = None →
      pl_file pl = run_sent run)).
Proof.
  intros Hpages. cbv zeta. rewrite GetLogs_unfold.
  split; [by apply GetLogs_loop_sent_prefix|].
  split; [intros last_script last rest' -> Hlast Hend; by apply GetLogs_loop_sent|].
  split; [apply convertLogsToString_order|].
  intros schedule.
  pose proof (pl_run_order maxMessages schedule
                (pl_start (run_sent (Client.GetLogs_loop oktaClient
                                       (base_params startTime endTime) 0 "" (calls ++ rest)))))
    as Hline.
  unfold pl_enqueued in Hline. simpl in Hline. rewrite <- !app_assoc in Hline.
  split; [exact Hline|].
  intros Hu Hq Ht. rewrite Hu, Hq, Ht in Hline. simpl in Hline.
  by rewrite app_nil_r in Hline.
Qed.

Lemma order_preserved_witness :
  Forall2 (λ script p, @delivered SmallLib.lib script p ∧ page_after p ≠ "")
    [[DoReturns Examples.page_AB]] [ExamplePages.first] ∧
  @delivered SmallLib.lib [DoReturns Examples.page_C] ExamplePages.second ∧
  run_sent (@Client.GetLogs SmallLib.lib Examples.oktaClient "t0" "t1" ExamplePages.two_pages)
  = ["A"; "B"; "C"] ∧
  pl_file (pl_run maxMessages ExampleSchedule.sends_first
             (pl_start (run_sent (@Client.GetLogs SmallLib.lib Examples.oktaClient "t0" "t1"
                                    ExamplePages.two_pages))))
  = ["A"; "B"; "C"].
Proof.
  assert (Forall2 (λ script p, @delivered SmallLib.lib script p ∧ page_after p ≠ "")
            [[DoReturns Examples.page_AB]] [ExamplePages.first]) as Hpages.
  { repeat constructor. vm_compute. discriminate. }
  assert (@delivered SmallLib.lib [DoReturns Examples.page_C] ExamplePages.second) as Hlast.
  { split; reflexivity. }
  split; [exact Hpages|]. split; [exact Hlast|].
  destruct (@order_preserved SmallLib.lib Examples.oktaClient "t0" "t1"
              [[DoReturns Examples.page_AB]] [ExamplePages.first]
              [[DoReturns Examples.page_C]] Hpages)
    as (_ & Hsent & _ & Hfile).
  pose proof (Hsent _ _ [] eq_refl Hlast eq_refl) as Hall.
  split; [exact Hall|].
  exact (eq_trans (proj2 (Hfile ExampleSchedule.sends_first) eq_refl eq_refl eq_refl) Hall).
Defined.

(** ** The poll loop *)

Lemma saved_app tr1 tr2 : saved (tr1 ++ tr2) = saved tr1 ++ saved tr2.
Proof. apply omap_app. Qed.

Lemma persisted_app disk tr1 tr2 :
  persisted disk (tr1 ++ tr2) = persisted (persisted disk tr1) tr2.
Proof.
  unfold persisted. rewrite saved_app.
  destruct (saved tr2) as [|st sts] using rev_ind.
  - by rewrite app_nil_r.
  - by rewrite app_assoc, !last_snoc.
Qed.

Section DrainLoop.
Context `{GoLib}.

(** While it waits, the poll goroutine does nothing else. *)
Lemma drain_waits depths :
  Forall (λ e, ∃ depth, e = EvDrainWait depth) (drain depths).1.
Proof.
  induction depths as [|[|d] depths IH]; simpl; try done.
  destruct (drain depths) as [waits drained]. simpl in *.
  constructor; eauto.
Qed.

Lemma drain_saves_nothing depths : saved (drain depths).1 = [].
Proof.
  pose proof (drain_waits depths) as Hw.
  induction Hw as [|e waits [depth ->] _ IH]; done.
Qed.

(** The loop leaves only after it has seen the channel empty. *)
Lemma drain_drained depths :
  (drain depths).2 = true → (0%nat ∈ depths).
Proof.
  induction depths as [|[|d] depths IH]; simpl; [done| |].
  - intros _. apply list_elem_of_here.
  - destruct (drain depths) as [waits drained]. simpl in *.
    intros Hd. apply list_elem_of_further. by apply IH.
Qed.
End DrainLoop.

(** C7. In a turn whose fetch returns a count of 0 the poll goroutine
    neither waits for the channel, nor rotates, writes out or removes the
    temp file: after the fetch it only logs the count, saves the
    checkpoint with the [now] that [getEvents] captured, and goes on with
    that state after the pause. *)
Theorem empty_cycle_advances `{GoLib}
    (GetLogs : OktaClient → string → string → list (list Attempt) → Run)
    (cfg : Config) (seconds : Z) (currentState : State) (env : CycleEnv)
    (disk : option State) :
  run_outcome (cycle_run GetLogs cfg currentState env) = Returned 0 None →
  let turn := pollCycle GetLogs cfg seconds currentState env in
  turn.1 = [EvLog "Getting data...";
            EvGetLogs (LastPollTimestamp currentState) (Format_RFC3339 (env_now env))
              (run_sent (cycle_run GetLogs cfg currentState env));
            EvProcessed 0;
            EvSave (checkpoint_of env) (cfg_state_path cfg);
            EvAfter seconds] ∧
  turn.2 = Continue (checkpoint_of env) ∧
  existsb is_copy_step turn.1 = false ∧
  persisted disk turn.1 = Some (checkpoint_of env).
Proof.
  intros Hrun. cbv zeta. unfold pollCycle, getEvents.
  unfold cycle_run in Hrun. rewrite Hrun. simpl. done.
Qed.

Lemma empty_cycle_advances_witness :
  run_outcome (cycle_run (@Client.GetLogs SmallLib.lib) ExampleCycles.cfg
                 {| LastPollTimestamp := "t0" |} ExampleCycles.quiet) = Returned 0 None ∧
  pollCycle (@Client.GetLogs SmallLib.lib) ExampleCycles.cfg 30
    {| LastPollTimestamp := "t0" |} ExampleCycles.quiet
  = ([EvLog "Getting data..."; EvGetLogs "t0" "t1" []; EvProcessed 0;
      EvSave {| LastPollTimestamp := "t1" |} "okta.state"; EvAfter 30],
     Continue {| LastPollTimestamp := "t1" |}).
Proof.
  assert (run_outcome (cycle_run (@Client.GetLogs SmallLib.lib) ExampleCycles.cfg
                         {| LastPollTimestamp := "t0" |} ExampleCycles.quiet)
          = Returned 0 None) as Hrun by reflexivity.
  split; [exact Hrun|].
  destruct (@empty_cycle_advances SmallLib.lib (@Client.GetLogs SmallLib.lib)
              ExampleCycles.cfg 30 {| LastPollTimestamp := "t0" |} ExampleCycles.quiet
              None Hrun) as (Htr & Hend & _).
  rewrite (surjective_pairing (pollCycle _ _ _ _ _)), Htr, Hend. reflexivity.
Defined.

(** Membership in a trace that is written out. *)
Ltac trace_member H :=
  repeat first [rewrite elem_of_app in H | rewrite elem_of_cons in H
               | rewrite elem_of_nil in H];
  solve [intuition (try discriminate; try congruence)].

Section PollCycle.
Context `{GoLib}.
Variable GetLogs : OktaClient → string → string → list (list Attempt) → Run.
Variable cfg : Config.


(** A save is the last but one step of a turn that went through. *)
Lemma pollCycle_save seconds st env st' path :
  EvSave st' path ∈ (pollCycle GetLogs cfg seconds st env).1 →
  st' = checkpoint_of env ∧
  (pollCycle GetLogs cfg seconds st env).2 = Continue st' ∧
  ∃ count,
    run_outcome (cycle_run GetLogs cfg st env) = Returned count None ∧
    (0 < count →
       (drain (env_depths env)).2 = true ∧
       env_write env = None ∧ env_remove env = None ∧
       (pollCycle GetLogs cfg seconds st env).1 = flushed_trace GetLogs cfg seconds st env count).
Proof.
  unfold pollCycle, getEvents, flushed_trace, fetched_trace, cycle_run, checkpoint_of.
  pose proof (drain_waits (env_depths env)) as Hwaits.
  assert (∀ st' path, EvSave st' path ∉ (drain (env_depths env)).1) as Hnone.
  { intros s q Hin. rewrite Forall_forall in Hwaits.
    destruct (Hwaits _ Hin) as [depth [=]]. }
  destruct (run_outcome _) as [count [err|]|msg|]; simpl;
    try (intros Hin; trace_member Hin).
  destruct (Z.gtb_spec count 0) as [Hpos|Hzero].
  - destruct (drain (env_depths env)) as [waits drained]. simpl in *.
    destruct drained; simpl.
    + destruct (env_write env) as [err|]; simpl.
      { intros Hin. exfalso. specialize (Hnone st' path). trace_member Hin. }
      destruct (env_remove env) as [err|]; simpl.
      { intros Hin. exfalso. specialize (Hnone st' path).
        rewrite <- !app_assoc in Hin. trace_member Hin. }
      intros Hin. specialize (Hnone st' path).
      rewrite <- !app_assoc in *. simpl in *.
      assert (st' = {| LastPollTimestamp := Format_RFC3339 (env_now env) |}) as ->
        by trace_member Hin.
      split; [done|]. split; [done|]. exists count. done.
    + intros Hin. exfalso. specialize (Hnone st' path). trace_member Hin.
  - simpl. intros Hin.
    assert (st' = {| LastPollTimestamp := Format_RFC3339 (env_now env) |}) as ->
        by trace_member Hin.
    split; [done|]. split; [done|]. exists count. split; [done|lia].
Qed.

(** A turn that goes on has saved the state it goes on with. *)
Lemma pollCycle_continue seconds st env st' disk :
  (pollCycle GetLogs cfg seconds st env).2 = Continue st' →
  st' = checkpoint_of env ∧ persisted disk (pollCycle GetLogs cfg seconds st env).1 = Some st'.
Proof.
  unfold pollCycle, getEvents, persisted.
  destruct (run_outcome _) as [count [err|]|msg|]; simpl; try done.
  destruct (count >? 0).
  - pose proof (drain_saves_nothing (env_depths env)) as Hw.
    destruct (drain (env_depths env)) as [waits drained]. simpl in *.
    destruct drained; simpl; [|done].
    destruct (env_write env); simpl; [done|].
    destruct (env_remove env); simpl; [done|].
    intros [= <-]. split; [done|].
    rewrite <- !app_assoc. simpl. rewrite saved_app, Hw. done.
  - simpl. intros [= <-]. done.
Qed.

Lemma poll_loop_app seconds st envs more tr0 st' :
  poll_loop GetLogs cfg seconds st envs = (tr0, Continue st') →
  poll_loop GetLogs cfg seconds st (envs ++ more)
  = (tr0 ++ (poll_loop GetLogs cfg seconds st' more).1,
     (poll_loop GetLogs cfg seconds st' more).2).
Proof.
  revert st tr0. induction envs as [|env envs IH]; intros st tr0; simpl.
  - intros [= <- <-]. by destruct (poll_loop _ _ _ _ more).
  - destruct (pollCycle GetLogs cfg seconds st env) as [tr e]. destruct e as [st1| | |]; try done.
    destruct (poll_loop GetLogs cfg seconds st1 envs) as [tr1 e1] eqn:Hrest.
    intros [= <- ->]. rewrite (IH st1 tr1 Hrest).
    by rewrite <- app_assoc.
Qed.

(** After turns that all went through, the disk holds the checkpoint of
    the last of them. *)
Lemma poll_loop_persisted seconds st envs env tr0 st' disk :
  poll_loop GetLogs cfg seconds st (envs ++ [env]) = (tr0, Continue st') →
  st' = checkpoint_of env ∧ persisted disk tr0 = Some st'.
Proof.
  revert st tr0 disk. induction envs as [|env0 envs IH]; intros st tr0 disk; simpl.
  - pose proof (pollCycle_continue seconds st env) as Hc.
    destruct (pollCycle GetLogs cfg seconds st env) as [tr e]. destruct e as [st1| | |]; try done.
    intros [= <- <-]. rewrite app_nil_r. by apply Hc.
  - destruct (pollCycle GetLogs cfg seconds st env0) as [tr e]. destruct e as [st1| | |]; try done.
    destruct (poll_loop GetLogs cfg seconds st1 (envs ++ [env])) as [tr1 e1] eqn:Hrest.
    intros [= <- ->]. rewrite persisted_app. by apply (IH st1).
Qed.
End PollCycle.



(** ** The earlier revision of the client *)

Lemma legacy_retry_loop_rate_limited k resp script :
  (k < 6)%nat → StatusCode resp = rateLimitHttpCode →
  ClientLegacy.retry_loop (backoff_delay k) (DoReturns resp :: script)
  = slept (backoff_delay k) <$> ClientLegacy.retry_loop (backoff_delay (S k)) script.
Proof.
  intros Hk Hs. pose proof (backoff_delay_capped k Hk).
  simpl. rewrite Hs, (backoff_double k Hk).
  unfold rateLimitHttpCode. status_cases; try lia. reflexivity.
Qed.

Lemma legacy_retry_loop_exhausted k resp script :
  (6 ≤ k)%nat →
  ClientLegacy.retry_loop (backoff_delay k) (DoReturns resp :: script)
  = Some (returned (Some resp) (Body resp) (BodyErr resp)).
Proof.
  intros Hk. pose proof (backoff_delay_over k Hk).
  simpl. status_cases; try lia; reflexivity.
Qed.

Lemma legacy_retry_loop_limited k limited rest :
  (k + length limited ≤ 6)%nat →
  Forall (λ resp, StatusCode resp = rateLimitHttpCode) limited →
  ClientLegacy.retry_loop (backoff_delay k) ((DoReturns <$> limited) ++ rest)
  = slept_all (backoff_delay <$> seq k (length limited))
      <$> ClientLegacy.retry_loop (backoff_delay (k + length limited)) rest.
Proof.
  revert k. induction limited as [|resp limited IH]; intros k Hk Hall.
  - simpl. rewrite Nat.add_0_r.
    destruct (ClientLegacy.retry_loop _ rest) as [c|]; simpl; [|done].
    by rewrite slept_all_nil.
  - inversion Hall as [|? ? Hs Hall']; subst. simpl length in *.
    rewrite fmap_cons, <- app_comm_cons.
    rewrite legacy_retry_loop_rate_limited by (done || lia).
    rewrite (IH (S k)) by (done || lia).
    replace (S k + length limited)%nat with (k + S (length limited))%nat by lia.
    destruct (ClientLegacy.retry_loop _ rest) as [c|]; simpl; [|done].
    reflexivity.
Qed.

Lemma legacy_retry_loop_sleeps k script call :
  (k ≤ 6)%nat →
  ClientLegacy.retry_loop (backoff_delay k) script = Some call →
  ∃ n, (k + n ≤ 6)%nat ∧ call_sleeps call = backoff_delay <$> seq k n.
Proof.
  revert k call. induction script as [|a script IH]; intros k call Hk Hrun; [done|].
  destruct a as [e|e|resp]; simpl in Hrun.
  - exists 0%nat. inversion Hrun; subst. split; [lia|done].
  - exists 0%nat. inversion Hrun; subst. split; [lia|done].
  - destruct ((backoff_delay k >? maxBackoffMS) || negb (StatusCode resp =? rateLimitHttpCode))
      eqn:Hstop.
    { exists 0%nat. inversion Hrun; subst. split; [lia|done]. }
    apply orb_false_iff in Hstop as [Hcap _].
    assert (k < 6)%nat as Hk6.
    { destruct (decide (k < 6)%nat) as [|Hge]; [done|].
      pose proof (backoff_delay_over k ltac:(lia)). lia. }
    rewrite (backoff_double k Hk6) in Hrun.
    destruct (ClientLegacy.retry_loop (backoff_delay (S k)) script) as [c|] eqn:Hrest; [|done].
    destruct (IH (S k) c ltac:(lia) Hrest) as (n & Hn & Hsl).
    exists (S n). simpl in Hrun. inversion Hrun; subst. simpl.
    split; [lia|]. by rewrite Hsl.
Qed.

(** The earlier revision backs off on the same schedule. *)
Theorem legacy_backoff_schedule (req : Request) (limited : list Response)
    (rest : list Attempt) :
  Forall (λ resp, StatusCode resp = rateLimitHttpCode) limited →
  ((length limited ≤ 6)%nat →
     ClientLegacy.makeRetryableHttpCall req ((DoReturns <$> limited) ++ rest)
     = slept_all (backoff_delays (length limited))
         <$> ClientLegacy.retry_loop (backoff_delay (length limited)) rest) ∧
  (∀ resp7, limited !! 6%nat = Some resp7 →
     ClientLegacy.makeRetryableHttpCall req ((DoReturns <$> limited) ++ rest)
     = Some {| call_result := {| cr_resp := Some resp7; cr_body := Body resp7;
                                 cr_err := BodyErr resp7 |};
               call_sleeps := [1000; 2000; 4000; 8000; 16000; 32000] |}) ∧
  (∀ call, ClientLegacy.makeRetryableHttpCall req ((DoReturns <$> limited) ++ rest)
           = Some call →
     ∃ n, (n ≤ 6)%nat ∧ call_sleeps call = backoff_delays n ∧
          Forall (λ d, d <= maxBackoffMS) (call_sleeps call)).
Proof.
  intros Hall. unfold ClientLegacy.makeRetryableHttpCall. split; [|split].
  - intros Hlen. change initialBackoffMS with (backoff_delay 0).
    apply (legacy_retry_loop_limited 0); [lia|done].
  - intros resp7 H7.
    rewrite <- (take_drop_middle limited 6 resp7 H7).
    rewrite fmap_app, fmap_cons, <- app_assoc, <- app_comm_cons.
    assert (length (take 6 limited) = 6%nat) as Hlen.
    { rewrite length_take. apply lookup_lt_Some in H7. lia. }
    change initialBackoffMS with (backoff_delay 0).
    rewrite (legacy_retry_loop_limited 0)
      by (rewrite ?Hlen; first [lia | by apply Forall_take]).
    rewrite Hlen. simpl plus.
    rewrite legacy_retry_loop_exhausted; [reflexivity | lia].
  - intros call Hrun. change initialBackoffMS with (backoff_delay 0) in Hrun.
    destruct (legacy_retry_loop_sleeps 0 _ call ltac:(lia) Hrun) as (n & Hn & Hsl).
    exists n. split; [lia|]. split; [done|].
    rewrite Hsl. apply Forall_fmap, Forall_forall. intros k Hk.
    apply elem_of_seq in Hk. simpl. apply backoff_delay_capped. lia.
Qed.

Lemma legacy_backoff_schedule_witness :
  Forall (λ resp, StatusCode resp = rateLimitHttpCode)
    (replicate 7 Examples.too_many_requests) ∧
  ClientLegacy.makeRetryableHttpCall Examples.get_logs
    ((DoReturns <$> replicate 7 Examples.too_many_requests) ++ [DoReturns Examples.page_C])
  = Some {| call_result := {| cr_resp := Some Examples.too_many_requests; cr_body := "{}";
                              cr_err := None |};
            call_sleeps := [1000; 2000; 4000; 8000; 16000; 32000] |}.
Proof.
  assert (Forall (λ resp, StatusCode resp = rateLimitHttpCode)
            (replicate 7 Examples.too_many_requests)) as Hall.
  { repeat constructor. }
  split; [exact Hall|].
  exact (proj1 (proj2 (legacy_backoff_schedule Examples.get_logs _
                         [DoReturns Examples.page_C] Hall))
           Examples.too_many_requests eq_refl).
Defined.

(** The earlier revision hands a response of any status but 429 to its
    caller as a success: the body is read and no error is made of the
    status. *)
Theorem legacy_passes_any_status (backoffMs : Z) (resp : Response) (rest : list Attempt) :
  StatusCode resp ≠ rateLimitHttpCode →
  ClientLegacy.retry_loop backoffMs (DoReturns resp :: rest)
  = Some {| call_result := {| cr_resp := Some resp; cr_body := Body resp;
                              cr_err := BodyErr resp |};
            call_sleeps := [] |}.
Proof.
  intros H429. simpl. unfold rateLimitHttpCode in *.
  status_cases; try lia; reflexivity.
Qed.

Lemma legacy_passes_any_status_witness :
  StatusCode Examples.internal_error ≠ rateLimitHttpCode ∧
  ClientLegacy.retry_loop 1000 [DoReturns Examples.internal_error]
  = Some {| call_result := {| cr_resp := Some Examples.internal_error; cr_body := "[]";
                              cr_err := None |};
            call_sleeps := [] |}.
Proof.
  assert (StatusCode Examples.internal_error ≠ rateLimitHttpCode) as H429
    by (vm_compute; discriminate).
  split; [exact H429|].
  exact (legacy_passes_any_status 1000 Examples.internal_error [] H429).
Defined.

Lemma events_total_nonneg pages : 0 <= events_total pages.
Proof.
  induction pages as [|p pages IH]; simpl; [lia|].
  pose proof (len_nonneg p.1). lia.
Qed.

Section LegacyPagination.
Context `{GoLib}.

Lemma legacy_request_any_script oktaClient params script :
  (ClientLegacy.conductRequest oktaClient "GET" "/api/v1/logs" params script).1
  = legacy_request oktaClient params.
Proof. reflexivity. Qed.

Lemma legacy_call_any_client oktaClient params script :
  (ClientLegacy.conductRequest oktaClient "GET" "/api/v1/logs" params script).2
  = legacy_call script.
Proof. reflexivity. Qed.

(** One turn of the [for afterLink != ""] loop. *)
Lemma paged_loop_cons oktaClient params count afterLink script calls :
  ClientLegacy.paged_loop oktaClient params count afterLink (script :: calls)
  = if (afterLink =? "")%string then run_done (Returned count None)
    else
      let params := Values_Set params "next" afterLink in
      let req := legacy_request oktaClient params in
      match legacy_call script with
      | None => run_end Pending req []
      | Some call =>
          match ClientLegacy.decode_events call with
          | Err err => run_end (Returned (-1) (Some err)) req []
          | Ok events =>
              let count := int_add count (len events) in
              let sent := pretty_Ugly <$> events in
              match ClientLegacy.offset_of call with
              | Panic msg => run_end (Crashed msg) req sent
              | Ret afterLink =>
                  run_then req sent
                    (ClientLegacy.paged_loop oktaClient params count afterLink calls)
              end
          end
      end.
Proof. reflexivity. Qed.

Lemma paged_loop_nil oktaClient params count afterLink :
  ClientLegacy.paged_loop oktaClient params count afterLink []
  = if (afterLink =? "")%string then run_done (Returned count None)
    else run_end Pending
           (legacy_request oktaClient (Values_Set params "next" afterLink)) [].
Proof. reflexivity. Qed.

Lemma legacy_GetLogs_cons oktaClient startTime endTime script calls :
  ClientLegacy.GetLogs oktaClient startTime endTime (script :: calls)
  = let params := base_params startTime endTime in
    let req := legacy_request oktaClient params in
    match legacy_call script with
    | None => run_end Pending req []
    | Some call =>
        match ClientLegacy.decode_events call with
        | Err err => run_end (Returned (-1) (Some err)) req []
        | Ok events =>
            if len events =? 0 then run_end (Returned 0 None) req []
            else
              let count := int_add 0 (len events) in
              let sent := pretty_Ugly <$> events in
              match ClientLegacy.offset_of call with
              | Panic msg => run_end (Crashed msg) req sent
              | Ret afterLink =>
                  run_then req sent
                    (ClientLegacy.paged_loop oktaClient params count afterLink calls)
              end
        end
    end.
Proof. reflexivity. Qed.

Lemma paged_loop_error oktaClient params count afterLink calls n err :
  run_outcome (ClientLegacy.paged_loop oktaClient params count afterLink calls)
  = Returned n (Some err) → n = -1.
Proof.
  revert params count afterLink.
  induction calls as [|script calls IH]; intros params count afterLink.
  - rewrite paged_loop_nil. by destruct (afterLink =? "")%string.
  - rewrite paged_loop_cons. cbv zeta.
    destruct (afterLink =? "")%string; [done|].
    destruct (legacy_call script) as [call|]; [|done].
    destruct (ClientLegacy.decode_events call) as [events|e]; [|by inversion 1].
    destruct (ClientLegacy.offset_of call) as [a|msg]; [|done].
    apply IH.
Qed.

(** Every request of the loop carries its cursor under the key next. *)
Lemma paged_loop_requests oktaClient base params count afterLink calls :
  (∀ cursor, Values_Set params "next" cursor = Values_Set base "next" cursor) →
  Forall (λ req, ∃ cursor, cursor ≠ "" ∧
                 req = legacy_request oktaClient (Values_Set base "next" cursor))
    (run_requests (ClientLegacy.paged_loop oktaClient params count afterLink calls)).
Proof.
  revert params count afterLink.
  induction calls as [|script calls IH]; intros params count afterLink Hinv.
  - rewrite paged_loop_nil.
    destruct (String.eqb_spec afterLink "") as [|Hne]; simpl; [done|].
    repeat constructor. exists afterLink. by rewrite Hinv.
  - rewrite paged_loop_cons. cbv zeta.
    destruct (String.eqb_spec afterLink "") as [|Hne]; simpl; [done|].
    assert (∃ cursor, cursor ≠ "" ∧
              legacy_request oktaClient (Values_Set params "next" afterLink)
              = legacy_request oktaClient (Values_Set base "next" cursor)) as Hreq.
    { exists afterLink. by rewrite Hinv. }
    destruct (legacy_call script) as [call|]; [|by repeat constructor].
    destruct (ClientLegacy.decode_events call) as [events|e]; [|by repeat constructor].
    destruct (ClientLegacy.offset_of call) as [a|msg]; [|by repeat constructor].
    simpl. constructor; [done|]. apply IH.
    intros cursor. unfold Values_Set. rewrite insert_insert_eq. apply Hinv.
Qed.

(** The loop over pages that came back whole. *)
Lemma paged_loop_delivered oktaClient params count afterLink calls pages rest :
  Forall2 (λ script p, legacy_delivered script p.1 p.2) calls pages →
  cursor_chain afterLink pages →
  0 <= count → count + events_total pages < 2 ^ 63 →
  run_outcome (ClientLegacy.paged_loop oktaClient params count afterLink (calls ++ rest))
  = Returned (count + events_total pages) None.
Proof.
  intros Hpages. revert params count afterLink.
  induction Hpages as [|script [events after] calls pages (call & Hcall & Hev & Hoff) _ IH];
    intros params count afterLink Hchain Hcount Hbound;
    cbn [fst snd cursor_chain events_total foldr app] in *.
  - subst afterLink. rewrite Z.add_0_r. by destruct rest.
  - destruct Hchain as [Hne Hchain]. rewrite paged_loop_cons. cbv zeta.
    apply String.eqb_neq in Hne. rewrite Hne, Hcall, Hev, Hoff.
    unfold run_then. cbn [run_outcome].
    change (foldr (λ p n, len p.1 + n) 0 pages) with (events_total pages) in *.
    pose proof (len_nonneg events).
    pose proof (events_total_nonneg pages).
    rewrite int_add_small by lia.
    rewrite IH by (done || lia). f_equal. lia.
Qed.
End LegacyPagination.

(** The earlier revision returns -1 with every error, too. *)
Theorem legacy_error_count `{GoLib} (oktaClient : OktaClient) (startTime endTime : string)
    (calls : list (list Attempt)) (count : Z) (err : error) :
  run_outcome (ClientLegacy.GetLogs oktaClient startTime endTime calls)
  = Returned count (Some err) →
  count = -1.
Proof.
  destruct calls as [|script calls]; [done|].
  rewrite legacy_GetLogs_cons. cbv zeta.
  destruct (legacy_call script) as [call|]; [|done].
  destruct (ClientLegacy.decode_events call) as [events|e]; [|by inversion 1].
  destruct (len events =? 0); [done|].
  destruct (ClientLegacy.offset_of call) as [a|msg]; [|done].
  apply paged_loop_error.
Qed.

Lemma legacy_error_count_witness :
  ∃ count err,
    run_outcome (@ClientLegacy.GetLogs SmallLib.lib Examples.oktaClient "t0" "t1"
                   [[DoReturns Examples.page_AB]; [DoFails (errors_New "timeout")]])
    = Returned count (Some err) ∧
    count = -1.
Proof.
  eexists _, _. split; [reflexivity|].
  exact (@legacy_error_count SmallLib.lib Examples.oktaClient "t0" "t1"
           [[DoReturns Examples.page_AB]; [DoFails (errors_New "timeout")]] _ _ eq_refl).
Defined.

(** The earlier revision returns the total over a first page with events
    and the pages its cursors lead to. *)
Theorem legacy_returns_total `{GoLib} (oktaClient : OktaClient) (startTime endTime : string)
    (script : list Attempt) (events : list string) (afterLink : string)
    (calls : list (list Attempt)) (pages : list (list string * string))
    (rest : list (list Attempt)) :
  legacy_delivered script events afterLink → events ≠ [] →
  Forall2 (λ script p, legacy_delivered script p.1 p.2) calls pages →
  cursor_chain afterLink pages →
  len events + events_total pages < 2 ^ 63 →
  run_outcome (ClientLegacy.GetLogs oktaClient startTime endTime (script :: calls ++ rest))
  = Returned (len events + events_total pages) None.
Proof.
  intros (call & Hcall & Hev & Hoff) Hsome Hpages Hchain Hbound.
  rewrite legacy_GetLogs_cons. cbv zeta. rewrite Hcall, Hev, Hoff.
  pose proof (len_nonneg events).
  assert (len events ≠ 0) as Hlen.
  { unfold len. destruct events; [done|simpl; lia]. }
  apply Z.eqb_neq in Hlen. rewrite Hlen.
  pose proof (events_total_nonneg pages).
  unfold run_then. cbn [run_outcome].
  rewrite int_add_small by lia.
  apply paged_loop_delivered; try done; lia.
Qed.

Lemma legacy_returns_total_witness :
  @legacy_delivered SmallLib.lib [DoReturns Examples.page_AB] ["A"; "B"] "x" ∧
  run_outcome (@ClientLegacy.GetLogs SmallLib.lib Examples.oktaClient "t0" "t1"
                 ExamplePages.two_pages) = Returned 3 None.
Proof.
  assert (@legacy_delivered SmallLib.lib [DoReturns Examples.page_AB] ["A"; "B"] "x") as H1.
  { eexists. repeat split; reflexivity. }
  assert (Forall2 (λ script p, @legacy_delivered SmallLib.lib script p.1 p.2)
            [[DoReturns Examples.page_C]] [(["C"], "")]) as H2.
  { repeat constructor. eexists. repeat split; reflexivity. }
  split; [exact H1|].
  refine (@legacy_returns_total SmallLib.lib Examples.oktaClient "t0" "t1"
            [DoReturns Examples.page_AB] ["A"; "B"] "x" [[DoReturns Examples.page_C]]
            [(["C"], "")] [] H1 _ H2 _ eq_refl); [discriminate|].
  split; [discriminate|reflexivity].
Defined.

(** The earlier revision ends the fetch on an empty first page, whatever
    the links of that page say: it returns 0 after its first request. *)
Theorem legacy_empty_first_page `{GoLib} (oktaClient : OktaClient)
    (startTime endTime : string) (script : list Attempt) (calls : list (list Attempt))
    (call : Call) :
  legacy_call script = Some call →
  ClientLegacy.decode_events call = Ok [] →
  ClientLegacy.GetLogs oktaClient startTime endTime (script :: calls)
  = {| run_outcome := Returned 0 None;
       run_requests := [legacy_request oktaClient (base_params startTime endTime)];
       run_sent := [] |}.
Proof.
  intros Hcall Hev. rewrite legacy_GetLogs_cons. cbv zeta.
  by rewrite Hcall, Hev.
Qed.

Lemma legacy_empty_first_page_witness :
  ∃ call,
    @legacy_call SmallLib.lib [DoReturns ExampleEmptyPage.page_none_more] = Some call ∧
    @ClientLegacy.decode_events SmallLib.lib call = Ok [] ∧
    @ClientLegacy.offset_of SmallLib.lib call = Ret "x" ∧
    @ClientLegacy.GetLogs SmallLib.lib Examples.oktaClient "t0" "t1"
      ExampleEmptyPage.empty_then_C
    = {| run_outcome := Returned 0 None;
         run_requests := [@legacy_request SmallLib.lib Examples.oktaClient
                            (base_params "t0" "t1")];
         run_sent := [] |} ∧
    length (run_requests (@Client.GetLogs SmallLib.lib Examples.oktaClient "t0" "t1"
                            ExampleEmptyPage.empty_then_C)) = 2%nat.
Proof.
  eexists. split; [reflexivity|]. split; [reflexivity|]. split; [reflexivity|].
  split; [|reflexivity].
  exact (@legacy_empty_first_page SmallLib.lib Examples.oktaClient "t0" "t1"
           [DoReturns ExampleEmptyPage.page_none_more] [[DoReturns Examples.page_C]]
           _ eq_refl eq_refl).
Defined.

(** The earlier revision sends the cursor of a follow-up request under the
    key next; its query has no [after] parameter. *)
Theorem legacy_follow_up_uses_next `{GoLib} (oktaClient : OktaClient)
    (startTime endTime : string) (calls : list (list Attempt)) (i : nat) (req : Request) :
  run_requests (ClientLegacy.GetLogs oktaClient startTime endTime calls) !! S i = Some req →
  ∃ cursor,
    cursor ≠ "" ∧
    req_method req = "GET" ∧
    req_url req
    = {| Scheme := "https"; Host := Domain oktaClient; Path := "/api/v1/logs";
         RawQuery := Values_Encode (Values_Set (base_params startTime endTime) "next" cursor) |} ∧
    Values_Set (base_params startTime endTime) "next" cursor !! "next" = Some [cursor] ∧
    Values_Set (base_params startTime endTime) "next" cursor !! "after" = None.
Proof.
  destruct calls as [|script calls]; [done|].
  rewrite legacy_GetLogs_cons. cbv zeta.
  destruct (legacy_call script) as [call|]; [|done].
  destruct (ClientLegacy.decode_events call) as [events|e]; [|done].
  destruct (len events =? 0); [done|].
  destruct (ClientLegacy.offset_of call) as [a|msg]; [|done].
  simpl. intros Hreq.
  pose proof (paged_loop_requests oktaClient (base_params startTime endTime)
                (base_params startTime endTime) (int_add 0 (len events)) a calls
                ltac:(done)) as Hall.
  rewrite Forall_lookup in Hall.
  destruct (Hall i req Hreq) as (cursor & Hne & ->).
  exists cursor. split; [done|]. split; [reflexivity|]. split; [reflexivity|].
  unfold base_params, Values_Set. split; by simplify_map_eq.
Qed.

Lemma legacy_follow_up_uses_next_witness :
  ∃ req,
    run_requests (@ClientLegacy.GetLogs SmallLib.lib Examples.oktaClient "t0" "t1"
                    ExamplePages.two_pages) !! 1%nat = Some req ∧
    RawQuery (req_url req) = "limit=1000&next=x&since=t0&until=t1" ∧
    ∃ cursor, req_url req
              = {| Scheme := "https"; Host := "okta.example"; Path := "/api/v1/logs";
                   RawQuery := @Values_Encode SmallLib.lib
                                 (Values_Set (base_params "t0" "t1") "next" cursor) |}.
Proof.
  eexists. split; [reflexivity|]. split; [vm_compute; reflexivity|].
  destruct (@legacy_follow_up_uses_next SmallLib.lib Examples.oktaClient "t0" "t1"
              ExamplePages.two_pages 0 _ eq_refl) as (cursor & _ & _ & Hurl & _).
  exists cursor. exact Hurl.
Defined.

(** ** Further properties *)

Lemma retry_loop_returns k script :
  (k ≤ 6)%nat → (7 - k ≤ length script)%nat →
  is_Some (Client.retry_loop (backoff_delay k) script).
Proof.
  revert k. induction script as [|a script IH]; intros k Hk Hlen; simpl in Hlen; [lia|].
  destruct a as [e|e|resp]; simpl; try done.
  destruct (negb (StatusCode resp =? 200) && negb (StatusCode resp =? rateLimitHttpCode));
    [done|].
  destruct ((backoff_delay k >? maxBackoffMS) || negb (StatusCode resp =? rateLimitHttpCode))
    eqn:Hstop; [done|].
  apply orb_false_iff in Hstop as [Hcap _].
  assert (k < 6)%nat as Hk6.
  { destruct (decide (k < 6)%nat) as [|Hge]; [done|].
    pose proof (backoff_delay_over k ltac:(lia)). lia. }
  rewrite (backoff_double k Hk6).
  destruct (IH (S k) ltac:(lia) ltac:(lia)) as [c ->]. done.
Qed.

(** The answers after the one that ended the call are never looked at. *)
Lemma retry_loop_app backoffMs pre post call :
  Client.retry_loop backoffMs pre = Some call →
  Client.retry_loop backoffMs (pre ++ post) = Some call.
Proof.
  revert backoffMs call. induction pre as [|a pre IH]; intros b call; [done|].
  destruct a as [e|e|resp]; simpl; try done.
  destruct (negb (StatusCode resp =? 200) && negb (StatusCode resp =? rateLimitHttpCode));
    [done|].
  destruct ((b >? maxBackoffMS) || negb (StatusCode resp =? rateLimitHttpCode)); [done|].
  destruct (Client.retry_loop (int_mul b backoffFactor) pre) as [c|] eqn:Hpre; [|done].
  rewrite (IH _ _ Hpre). done.
Qed.

(** A retryable call returns after at most seven attempts: a script of
    seven answers always suffices. *)
Theorem makeRetryableHttpCall_returns (req : Request) (script : list Attempt) :
  (7 ≤ length script)%nat →
  ∃ call, Client.makeRetryableHttpCall req script = Some call ∧
          Client.makeRetryableHttpCall req (take 7 script) = Some call.
Proof.
  intros Hlen. unfold Client.makeRetryableHttpCall.
  change initialBackoffMS with (backoff_delay 0).
  destruct (retry_loop_returns 0 (take 7 script) ltac:(lia)) as [call Hcall].
  { rewrite length_take. lia. }
  exists call. split; [|done].
  rewrite <- (take_drop 7 script). by apply retry_loop_app.
Qed.

Lemma makeRetryableHttpCall_returns_witness :
  (7 ≤ length (replicate 9 (DoReturns Examples.too_many_requests)))%nat ∧
  ∃ call, Client.makeRetryableHttpCall Examples.get_logs
            (replicate 9 (DoReturns Examples.too_many_requests)) = Some call.
Proof.
  assert (7 ≤ length (replicate 9 (DoReturns Examples.too_many_requests)))%nat as Hlen
    by (vm_compute; lia).
  split; [exact Hlen|].
  destruct (makeRetryableHttpCall_returns Examples.get_logs _ Hlen) as (call & Hcall & _).
  exists call. exact Hcall.
Defined.

(** A next link without a cursor ends the pagination: [getResultsOffset]
    returns the empty cursor for it. *)
Theorem next_link_without_cursor `{GoLib} (v self next whole target : string)
    (nextUrl : ParsedURL) (links : list string) :
  strings_Contains v "next" = true →
  strings_Split v "," = [self; next] →
  re_FindStringSubmatch next = [whole; target] →
  url_Parse target = Ok nextUrl →
  url_Query nextUrl "after" = [] →
  getResultsOffset_range (v :: links) = Ret "".
Proof.
  intros Hv Hs Hm Hp Hq. simpl.
  by rewrite Hv, Hs; simpl; rewrite Hm; simpl; rewrite Hp, Hq.
Qed.

Lemma next_link_without_cursor_witness :
  @getResultsOffset SmallLib.lib ExampleNoCursor.page_AB_last = Ret "" ∧
  run_outcome (@Client.GetLogs SmallLib.lib Examples.oktaClient "t0" "t1"
                 [[DoReturns ExampleNoCursor.page_AB_last]; [DoReturns Examples.page_C]])
  = Returned 2 None.
Proof.
  split; [|reflexivity].
  exact (@next_link_without_cursor SmallLib.lib ExampleNoCursor.links_without_after
           _ _ _ _ _ [] eq_refl eq_refl eq_refl eq_refl eq_refl).
Defined.

(** Backpressure: under every schedule the channel holds at most its
    capacity, and no message is dropped or reordered on the way from the
    sender to the temp file. *)
Theorem channel_backpressure (capacity : nat) (schedule : list Move) (sends : list string) :
  let pl := pl_run capacity schedule (pl_start sends) in
  (length (pl_queue pl) ≤ capacity)%nat ∧
  pl_file pl ++ option_list (pl_taken pl) ++ pl_queue pl ++ pl_unsent pl = sends.
Proof.
  cbv zeta. split.
  - apply pl_run_bounded. simpl. lia.
  - pose proof (pl_run_order capacity schedule (pl_start sends)) as Hline.
    unfold pl_enqueued in Hline. simpl in Hline. by rewrite <- !app_assoc in Hline.
Qed.

(** ** More on the client *)

Section ClientCount.
Context `{GoLib}.

(** The count of the loop is the count it was entered with plus the number
    of messages it sent, as long as that stays in the range of [int]. *)
Lemma GetLogs_loop_count oktaClient params count afterLink calls n :
  run_outcome (Client.GetLogs_loop oktaClient params count afterLink calls)
  = Returned n None →
  0 <= count →
  count + len (run_sent (Client.GetLogs_loop oktaClient params count afterLink calls))
  < 2 ^ 63 →
  n = count + len (run_sent (Client.GetLogs_loop oktaClient params count afterLink calls)).
Proof.
  revert params count afterLink.
  induction calls as [|script calls IH]; intros params count afterLink; [done|].
  rewrite GetLogs_loop_cons. cbv zeta.
  destruct (fetch_page script) as [[p|msg]|]; try done.
  destruct (page_err p); [done|].
  pose proof (len_nonneg (page_events p)) as Hp.
  assert (len (pretty_Ugly <$> page_events p) = len (page_events p)) as Hlen
    by (unfold len; by rewrite length_fmap).
  destruct (page_after p =? "")%string.
  - simpl. rewrite Hlen. intros [= <-] Hcount Hbound. by rewrite int_add_small by lia.
  - unfold run_then. cbn [run_outcome run_sent].
    intros Hout Hcount Hbound.
    assert (len ((pretty_Ugly <$> page_events p) ++
                 run_sent (Client.GetLogs_loop oktaClient (next_params params afterLink)
                             (int_add count (len (page_events p))) (page_after p) calls))
            = len (page_events p) +
              len (run_sent (Client.GetLogs_loop oktaClient (next_params params afterLink)
                               (int_add count (len (page_events p))) (page_after p) calls)))
      as Happ.
    { unfold len. rewrite length_app, length_fmap. lia. }
    rewrite Happ in *.
    pose proof (len_nonneg (run_sent (Client.GetLogs_loop oktaClient
                  (next_params params afterLink)
                  (int_add count (len (page_events p))) (page_after p) calls))) as Hrest.
    assert (int_add count (len (page_events p)) = count + len (page_events p)) as Hadd
      by (apply int_add_small; lia).
    rewrite Hadd in *.
    rewrite (IH _ _ _ Hout) by lia. lia.
Qed.

(** Every request of the loop is the request of some parameters. *)
Lemma GetLogs_loop_requests_shape oktaClient params count afterLink calls :
  Forall (λ req, ∃ params', req = logs_request oktaClient params')
    (run_requests (Client.GetLogs_loop oktaClient params count afterLink calls)).
Proof.
  revert params count afterLink.
  induction calls as [|script calls IH]; intros params count afterLink.
  - rewrite GetLogs_loop_nil. repeat constructor. eauto.
  - rewrite GetLogs_loop_cons. cbv zeta.
    destruct (fetch_page script) as [[p|msg]|]; try (repeat constructor; eauto).
    destruct (page_err p); [repeat constructor; eauto|].
    destruct (page_after p =? "")%string; [repeat constructor; eauto|].
    simpl. constructor; [eauto|apply IH].
Qed.
End ClientCount.

(** When [GetLogs] returns without error, its count is the number of
    messages it has put on the channel (that number being within the range
    of [int]): pages that were sent are counted, and nothing else is. *)
Theorem GetLogs_counts_what_it_sent `{GoLib} (oktaClient : OktaClient)
    (startTime endTime : string) (calls : list (list Attempt)) (count : Z) :
  run_outcome (Client.GetLogs oktaClient startTime endTime calls) = Returned count None →
  len (run_sent (Client.GetLogs oktaClient startTime endTime calls)) < 2 ^ 63 →
  count = len (run_sent (Client.GetLogs oktaClient startTime endTime calls)).
Proof.
  rewrite GetLogs_unfold. intros Hout Hbound.
  rewrite (GetLogs_loop_count _ _ _ _ _ _ Hout) by lia. lia.
Qed.

Lemma GetLogs_counts_what_it_sent_witness :
  run_outcome (@Client.GetLogs SmallLib.lib Examples.oktaClient "t0" "t1"
                 ExamplePages.two_pages) = Returned 3 None ∧
  3 = len (run_sent (@Client.GetLogs SmallLib.lib Examples.oktaClient "t0" "t1"
                       ExamplePages.two_pages)).
Proof.
  split; [reflexivity|].
  exact (@GetLogs_counts_what_it_sent SmallLib.lib Examples.oktaClient "t0" "t1"
           ExamplePages.two_pages 3 eq_refl eq_refl).
Defined.

(** Every request [GetLogs] issues, on whichever page and whatever came
    back before, is a GET of [https://<domain>/api/v1/logs] without a body
    that carries exactly the three headers Accept, Authorization (the token
    after SSWS) and Content-Type; the first one has the query of [limit],
    [since] and [until] alone. *)
Theorem GetLogs_requests_are_authenticated_gets `{GoLib} (oktaClient : OktaClient)
    (startTime endTime : string) (calls : list (list Attempt)) :
  Forall (λ req,
            req_method req = "GET" ∧
            Scheme (req_url req) = "https" ∧
            Host (req_url req) = Domain oktaClient ∧
            Path (req_url req) = "/api/v1/logs" ∧
            req_body req = None ∧
            req_headers req
            = <["Content-Type" := "application/json"]>
                (<["Authorization" := "SSWS " +:+ Token oktaClient]>
                   (<["Accept" := "application/json"]> ∅)))
    (run_requests (Client.GetLogs oktaClient startTime endTime calls)) ∧
  (RawQuery ∘ req_url) <$> head (run_requests (Client.GetLogs oktaClient startTime endTime calls))
  = Some (Values_Encode (base_params startTime endTime)).
Proof.
  rewrite GetLogs_unfold. split.
  - eapply Forall_impl; [apply GetLogs_loop_requests_shape|].
    intros req [params ->]. done.
  - by rewrite GetLogs_loop_first_request.
Qed.

Section ClientPageErrors.
Context `{GoLib}.

Lemma fetch_page_error script p err :
  fetch_page script = Some (Ret p) → page_err p = Some err →
  page_events p = [] ∧
  ∃ what cause, what ∈ page_error_prefixes ∧
                err = errors_New (what +:+ Error cause +:+ newline).
Proof.
  unfold fetch_page, Client.getLogsRequest, Client.conductRequest,
    Client.makeRetryableHttpCall, page_error_prefixes.
  cbn [negb String.eqb snd].
  destruct (Client.retry_loop initialBackoffMS script) as [call|]; [|done].
  cbn [fmap option_fmap option_map].
  destruct (cr_err (call_result call)) as [e|] eqn:He; simpl.
  { intros [= <-] [= <-]. split; [done|].
    eexists _, e. split; [|done]. apply list_elem_of_here. }
  rewrite He.
  destruct (json_Unmarshal (cr_body (call_result call))) as [items|e].
  2:{ intros [= <-] [= <-]. split; [done|].
      eexists _, e. split; [|done]. apply list_elem_of_further, list_elem_of_here. }
  destruct (convertLogsToString items) as [events|e].
  2:{ intros [= <-] [= <-]. split; [done|].
      eexists _, e. split; [|done].
      apply list_elem_of_further, list_elem_of_further, list_elem_of_here. }
  destruct (cr_resp (call_result call)) as [resp|]; [|done].
  destruct (getResultsOffset resp); [|done].
  intros [= <-]. done.
Qed.

Lemma GetLogs_loop_error_names_step oktaClient params count afterLink calls n err :
  run_outcome (Client.GetLogs_loop oktaClient params count afterLink calls)
  = Returned n (Some err) →
  ∃ what cause, what ∈ page_error_prefixes ∧
                err = errors_New (what +:+ Error cause +:+ newline).
Proof.
  revert params count afterLink.
  induction calls as [|script calls IH]; intros params count afterLink; [done|].
  rewrite GetLogs_loop_cons. cbv zeta.
  destruct (fetch_page script) as [[p|msg]|] eqn:Hpage; try done.
  destruct (page_err p) as [e|] eqn:He.
  - intros [= <- <-]. by destruct (fetch_page_error _ _ _ Hpage He) as [_ ?].
  - destruct (page_after p =? "")%string; [done|]. apply IH.
Qed.
End ClientPageErrors.

(** Every error [GetLogs] returns names the step of the page fetch that
    failed: its message is one of the three prefixes (request, decoding of
    the body, conversion of a record), the message of the error underneath
    and a line feed. *)
Theorem GetLogs_error_names_step `{GoLib} (oktaClient : OktaClient)
    (startTime endTime : string) (calls : list (list Attempt)) (count : Z) (err : error) :
  run_outcome (Client.GetLogs oktaClient startTime endTime calls)
  = Returned count (Some err) →
  ∃ what cause, what ∈ page_error_prefixes ∧
                err = errors_New (what +:+ Error cause +:+ newline).
Proof. rewrite GetLogs_unfold. apply GetLogs_loop_error_names_step. Qed.

Lemma GetLogs_error_names_step_witness :
  ∃ err,
    run_outcome (@Client.GetLogs SmallLib.lib Examples.oktaClient "t0" "t1"
                   [[DoReturns Examples.page_AB]; [DoFails (errors_New "timeout")]])
    = Returned (-1) (Some err) ∧
    ∃ what cause, what ∈ page_error_prefixes ∧
                  err = errors_New (what +:+ Error cause +:+ newline).
Proof.
  eexists. split; [reflexivity|].
  exact (@GetLogs_error_names_step SmallLib.lib Examples.oktaClient "t0" "t1"
           [[DoReturns Examples.page_AB]; [DoFails (errors_New "timeout")]] _ _ eq_refl).
Defined.

(** [convertLogsToString] is all or nothing: it succeeds exactly when every
    item can be serialised, with one string per item in the order of the
    items; otherwise its error is the one of the first item that cannot,
    and no string is returned. *)
Theorem convertLogsToString_all_or_nothing `{GoLib} (items : list JSON) :
  (∀ events,
     convertLogsToString items = Ok events ↔
     Forall2 (λ item event, json_Marshal item = Ok event) items events) ∧
  (∀ e,
     convertLogsToString items = Err e ↔
     ∃ before val later,
       items = before ++ val :: later ∧
       Forall (λ item, ∃ plain, json_Marshal item = Ok plain) before ∧
       json_Marshal val = Err e).
Proof.
  split.
  - intros events. split; [apply convertLogsToString_order|].
    induction 1 as [|item event items events Hitem _ IH]; simpl; [done|].
    by rewrite Hitem, IH.
  - induction items as [|val items IH]; intros e; simpl.
    + split; [done|]. intros ([|??] & ? & ? & [=] & _).
    + destruct (json_Marshal val) as [plain|e'] eqn:Hval.
      * assert ((∃ before val' later,
                   val :: items = before ++ val' :: later ∧
                   Forall (λ item, ∃ plain, json_Marshal item = Ok plain) before ∧
                   json_Marshal val' = Err e) ↔
                (∃ before val' later,
                   items = before ++ val' :: later ∧
                   Forall (λ item, ∃ plain, json_Marshal item = Ok plain) before ∧
                   json_Marshal val' = Err e)) as Hshift.
        { split.
          - intros ([|v before] & val' & later & Heq & Hbefore & Hbad);
              injection Heq as <- Hitems; [congruence|].
            inversion Hbefore; subst. eauto 10.
          - intros (before & val' & later & -> & Hbefore & Hbad).
            exists (val :: before), val', later.
            split; [done|]. split; [constructor; eauto|done]. }
        rewrite Hshift, <- IH.
        destruct (convertLogsToString items); split; congruence.
      * split.
        -- intros [= <-]. exists [], val, items. done.
        -- intros ([|v before] & val' & later & Heq & Hbefore & Hbad);
             injection Heq as <- Hitems; [congruence|].
           inversion Hbefore as [|?? [plain Hplain]]; subst. congruence.
Qed.

(** ** More on the link header *)

Lemma prefix_comma_contains s :
  strings_Contains s "," = false → String.prefix "," s = false.
Proof. destruct s; simpl; [done|]. by intros [? _]%orb_false_iff. Qed.

(** A text without a comma is a single piece. *)
Lemma strings_Split_no_comma s :
  strings_Contains s "," = false → strings_Split s "," = [s].
Proof.
  unfold strings_Split.
  enough (strings_Contains s "," = false → split_go "," 0 s = (s, [])) as Hgo
    by (intros Hs; by rewrite Hgo).
  induction s as [|c s IH]; [done|].
  intros Hs. pose proof (prefix_comma_contains _ Hs) as Hp.
  simpl in Hs. apply orb_false_iff in Hs as [_ Hs].
  cbn [split_go]. rewrite Hp, (IH Hs). done.
Qed.

(** Link values that hold one link each (no comma in any of them) never
    give a cursor: whichever of them mentions next, it is not made of two
    entries, and [getResultsOffset] returns the empty cursor. A server that
    sends the self link and the next link as separate values of the header
    is read as having no further page. *)
Theorem one_link_per_value_gives_no_cursor `{GoLib} (links : list string) :
  Forall (λ v, strings_Contains v "," = false) links →
  getResultsOffset_range links = Ret "".
Proof.
  induction 1 as [|v links Hv _ IH]; simpl; [done|].
  destruct (strings_Contains v "next"); [|done].
  by rewrite (strings_Split_no_comma v Hv).
Qed.

Lemma one_link_per_value_gives_no_cursor_witness :
  Forall (λ v, strings_Contains v "," = false)
    [ExampleSeparateLinks.self_value; ExampleSeparateLinks.next_value] ∧
  @getResultsOffset SmallLib.lib ExampleSeparateLinks.page_two_values = Ret "" ∧
  run_outcome (@Client.GetLogs SmallLib.lib Examples.oktaClient "t0" "t1"
                 [[DoReturns ExampleSeparateLinks.page_two_values];
                  [DoReturns Examples.page_C]])
  = Returned 2 None.
Proof.
  assert (Forall (λ v, strings_Contains v "," = false)
            [ExampleSeparateLinks.self_value; ExampleSeparateLinks.next_value]) as Hall.
  { repeat constructor. }
  split; [exact Hall|]. split; [|reflexivity].
  exact (@one_link_per_value_gives_no_cursor SmallLib.lib _ Hall).
Defined.

(** Only the first Link value that mentions next is read: the values before
    it are skipped, and the values after it change nothing, whatever they
    hold and whatever the first one gave (a cursor, none, or a panic). *)
Theorem first_mention_of_next_decides `{GoLib} (skipped : list string) (v : string)
    (later : list string) :
  Forall (λ u, strings_Contains u "next" = false) skipped →
  strings_Contains v "next" = true →
  getResultsOffset_range (skipped ++ v :: later) = getResultsOffset_range [v].
Proof.
  intros Hskipped Hv.
  induction Hskipped as [|u skipped Hu _ IH]; simpl.
  - rewrite Hv.
    destruct (negb (length (strings_Split v ",") =? 2)%nat); [done|].
    destruct (re_FindStringSubmatch (nth 1 (strings_Split v ",") "") !! 1%nat); [|done].
    done.
  - rewrite Hu. exact IH.
Qed.

Lemma first_mention_of_next_decides_witness :
  strings_Contains ExampleNoCursor.links_without_after "next" = true ∧
  @getResultsOffset_range SmallLib.lib
    [ExampleSeparateLinks.self_value; ExampleNoCursor.links_without_after;
     Examples.links_AB]
  = Ret "".
Proof.
  split; [reflexivity|].
  refine (eq_trans
            (@first_mention_of_next_decides SmallLib.lib
               [ExampleSeparateLinks.self_value] ExampleNoCursor.links_without_after
               [Examples.links_AB] _ eq_refl) eq_refl).
  repeat constructor.
Defined.

(** ** More on the poll loop *)

Section PollWindows.
Context `{GoLib}.
Variable GetLogs : OktaClient → string → string → list (list Attempt) → Run.
Variable cfg : Config.

Lemma windows_app tr1 tr2 : windows (tr1 ++ tr2) = windows tr1 ++ windows tr2.
Proof. apply omap_app. Qed.

Lemma drain_no_window depths : windows (drain depths).1 = [].
Proof.
  pose proof (drain_waits depths) as Hw.
  induction Hw as [|e waits [depth ->] _ IH]; done.
Qed.

(** Every turn fetches exactly once, from the checkpoint to its [now]. *)
Lemma pollCycle_window seconds st env :
  windows (pollCycle GetLogs cfg seconds st env).1
  = [(LastPollTimestamp st, Format_RFC3339 (env_now env))].
Proof.
  unfold pollCycle, getEvents.
  pose proof (drain_no_window (env_depths env)) as Hw.
  unfold windows in *.
  destruct (run_outcome _) as [count [err|]|msg|]; simpl; try done.
  destruct (count >? 0); [|done].
  destruct (drain (env_depths env)) as [waits drained]. simpl in *.
  destruct drained; simpl.
  - destruct (env_write env); simpl.
    { by rewrite !omap_app, Hw. }
    destruct (env_remove env); simpl;
      rewrite <- ?app_assoc, !omap_app, Hw; done.
  - f_equal. exact Hw.
Qed.

Lemma poll_loop_windows seconds st envs :
  ∃ n, (n ≤ length envs)%nat ∧
       windows (poll_loop GetLogs cfg seconds st envs).1
       = window_chain (LastPollTimestamp st)
           ((λ env, Format_RFC3339 (env_now env)) <$> take n envs) ∧
       (∀ st', (poll_loop GetLogs cfg seconds st envs).2 = Continue st' → n = length envs).
Proof.
  revert st. induction envs as [|env envs IH]; intros st.
  - exists 0%nat. done.
  - simpl.
    pose proof (pollCycle_window seconds st env) as Hwin.
    pose proof (pollCycle_continue GetLogs cfg seconds st env) as Hcont.
    destruct (pollCycle GetLogs cfg seconds st env) as [tr e]. simpl in *.
    destruct e as [st1| | |];
      try (exists 1%nat; simpl; split; [lia|]; split; [by rewrite Hwin|done]).
    destruct (Hcont st1 None eq_refl) as [-> _].
    destruct (IH (checkpoint_of env)) as (n & Hn & Hw & Hall).
    destruct (poll_loop GetLogs cfg seconds (checkpoint_of env) envs) as [tr1 e1].
    simpl in *. exists (S n). split; [lia|]. split.
    + by rewrite windows_app, Hwin, Hw.
    + intros st' He. by rewrite (Hall st' He).
Qed.

(** The loop ends with the first turn that does not go through: the turns
    scripted after it never happen. *)
Lemma poll_loop_stops seconds st envs more :
  (∀ st', (poll_loop GetLogs cfg seconds st envs).2 ≠ Continue st') →
  poll_loop GetLogs cfg seconds st (envs ++ more) = poll_loop GetLogs cfg seconds st envs.
Proof.
  revert st. induction envs as [|env envs IH]; intros st Hstop; simpl in *.
  - by destruct (Hstop st).
  - destruct (pollCycle GetLogs cfg seconds st env) as [tr [st1| | |]]; try done.
    specialize (IH st1).
    destruct (poll_loop GetLogs cfg seconds st1 envs) as [tr1 e1]. simpl in *.
    by rewrite IH.
Qed.

(** A turn that does not go through saves nothing. *)
Lemma pollCycle_failed_saves_nothing seconds st env :
  (∀ st', (pollCycle GetLogs cfg seconds st env).2 ≠ Continue st') →
  saved (pollCycle GetLogs cfg seconds st env).1 = [].
Proof.
  unfold pollCycle, getEvents.
  pose proof (drain_saves_nothing (env_depths env)) as Hw.
  unfold saved in *.
  destruct (run_outcome _) as [count [err|]|msg|]; simpl; try done.
  destruct (count >? 0).
  - destruct (drain (env_depths env)) as [waits drained]. simpl in *.
    destruct drained; simpl.
    + destruct (env_write env); simpl.
      { intros _. by rewrite !omap_app, Hw. }
      destruct (env_remove env); simpl.
      { intros _. rewrite <- !app_assoc. by rewrite !omap_app, Hw. }
      intros Hstop. by destruct (Hstop (checkpoint_of env)).
    + intros _. exact Hw.
  - intros Hstop. by destruct (Hstop (checkpoint_of env)).
Qed.
End PollWindows.

(** The windows of successive turns lie end to end: the first fetch starts
    at the checkpoint that was restored (or at the one of [state.New()]
    when there is no state file), every later fetch starts at the [until]
    of the turn before, and every [until] is the [now] of its turn; when
    the state file cannot be restored nothing is fetched. *)
Theorem fetch_windows_are_chained `{GoLib}
    (GetLogs : OktaClient → string → string → list (list Attempt) → Run)
    (cfg : Config) (state_New : State) (seconds : Z) (file : StateFile)
    (envs : list CycleEnv) :
  let tr := (pollEvery GetLogs cfg state_New seconds file envs).1 in
  match file with
  | StateFileHolds (Err _) => windows tr = []
  | StateFileHolds (Ok st) =>
      ∃ n, (n ≤ length envs)%nat ∧
           windows tr = window_chain (LastPollTimestamp st)
                          ((λ env, Format_RFC3339 (env_now env)) <$> take n envs)
  | NoStateFile =>
      ∃ n, (n ≤ length envs)%nat ∧
           windows tr = window_chain (LastPollTimestamp state_New)
                          ((λ env, Format_RFC3339 (env_now env)) <$> take n envs)
  end.
Proof.
  cbv zeta. destruct file as [|[st|e]]; simpl; [| |done].
  - destruct (poll_loop_windows GetLogs cfg seconds state_New envs) as (n & ? & ? & _); eauto.
  - destruct (poll_loop_windows GetLogs cfg seconds st envs) as (n & ? & ? & _); eauto.
Qed.

(** Whatever makes a turn fail (the fetch, a panic, the outputs, the
    removal of the temp file, a channel that never drains), that turn is
    the last one: the loop ends with its trace and its end, the turns
    scripted after it never happen, and the checkpoint on disk is the one
    the turns before left. *)
Theorem failed_turn_is_final `{GoLib}
    (GetLogs : OktaClient → string → string → list (list Attempt) → Run)
    (cfg : Config) (seconds : Z) (st : State) (envs : list CycleEnv)
    (env : CycleEnv) (more : list CycleEnv) (disk : option State)
    (tr0 : list Event) (st1 : State) :
  poll_loop GetLogs cfg seconds st envs = (tr0, Continue st1) →
  (∀ st', (pollCycle GetLogs cfg seconds st1 env).2 ≠ Continue st') →
  poll_loop GetLogs cfg seconds st (envs ++ env :: more)
  = (tr0 ++ (pollCycle GetLogs cfg seconds st1 env).1,
     (pollCycle GetLogs cfg seconds st1 env).2) ∧
  persisted disk (tr0 ++ (pollCycle GetLogs cfg seconds st1 env).1) = persisted disk tr0.
Proof.
  intros Hloop Hfail. split.
  - rewrite (poll_loop_app GetLogs cfg seconds st envs (env :: more) tr0 st1 Hloop).
    change (env :: more) with ([env] ++ more).
    rewrite poll_loop_stops.
    + simpl. destruct (pollCycle GetLogs cfg seconds st1 env) as [tr [st2| | |]];
        first [done | by destruct (Hfail st2)].
    + intros st'. simpl.
      destruct (pollCycle GetLogs cfg seconds st1 env) as [tr [st2| | |]];
        first [done | by destruct (Hfail st2)].
  - rewrite persisted_app. unfold persisted at 1.
    by rewrite (pollCycle_failed_saves_nothing GetLogs cfg seconds st1 env Hfail).
Qed.

Lemma failed_turn_is_final_witness :
  (poll_loop (@Client.GetLogs SmallLib.lib) ExampleCycles.cfg 30
     {| LastPollTimestamp := "t0" |}
     ([ExampleCycles.quiet] ++ [ExampleCycles.busy_kept_file; ExampleCycles.quiet])).2
  = Fatal "Unable to remove tmp file: permission denied" ∧
  EvWriteToOutputs "/tmp/okta.2" "t2"
  ∈ (poll_loop (@Client.GetLogs SmallLib.lib) ExampleCycles.cfg 30
       {| LastPollTimestamp := "t0" |}
       ([ExampleCycles.quiet] ++ [ExampleCycles.busy_kept_file; ExampleCycles.quiet])).1 ∧
  persisted (Some {| LastPollTimestamp := "t0" |})
    (poll_loop (@Client.GetLogs SmallLib.lib) ExampleCycles.cfg 30
       {| LastPollTimestamp := "t0" |}
       ([ExampleCycles.quiet] ++ [ExampleCycles.busy_kept_file; ExampleCycles.quiet])).1
  = Some {| LastPollTimestamp := "t1" |}.
Proof.
  assert (∀ st', (pollCycle (@Client.GetLogs SmallLib.lib) ExampleCycles.cfg 30
                    {| LastPollTimestamp := "t1" |} ExampleCycles.busy_kept_file).2
                 ≠ Continue st') as Hfail.
  { intros st'. vm_compute. discriminate. }
  destruct (@failed_turn_is_final SmallLib.lib (@Client.GetLogs SmallLib.lib)
              ExampleCycles.cfg 30 {| LastPollTimestamp := "t0" |}
              [ExampleCycles.quiet] ExampleCycles.busy_kept_file [ExampleCycles.quiet]
              (Some {| LastPollTimestamp := "t0" |})
              [EvLog "Getting data..."; EvGetLogs "t0" "t1" []; EvProcessed 0;
               EvSave {| LastPollTimestamp := "t1" |} "okta.state"; EvAfter 30]
              {| LastPollTimestamp := "t1" |} eq_refl Hfail)
    as [Hrun Hdisk].
  rewrite Hrun. split; [reflexivity|]. split.
  - vm_compute. do 9 apply list_elem_of_further. apply list_elem_of_here.
  - cbn [fst]. rewrite Hdisk. reflexivity.
Defined.

(** With the current client, a turn that goes through has copied the temp
    file to the outputs exactly when [GetLogs] sent something: if nothing
    was sent no copy step occurs, and if anything was sent the turn waited
    for the channel, rotated, wrote the outputs and removed the temp file
    before it saved (the number of messages being within [int]). *)
Theorem turn_flushes_what_was_sent `{GoLib} (cfg : Config) (seconds : Z)
    (st : State) (env : CycleEnv) (st' : State) :
  (pollCycle Client.GetLogs cfg seconds st env).2 = Continue st' →
  len (run_sent (cycle_run Client.GetLogs cfg st env)) < 2 ^ 63 →
  (run_sent (cycle_run Client.GetLogs cfg st env) = [] →
     existsb is_copy_step (pollCycle Client.GetLogs cfg seconds st env).1 = false) ∧
  (run_sent (cycle_run Client.GetLogs cfg st env) ≠ [] →
     env_write env = None ∧ env_remove env = None ∧
     (pollCycle Client.GetLogs cfg seconds st env).1
     = flushed_trace Client.GetLogs cfg seconds st env
         (len (run_sent (cycle_run Client.GetLogs cfg st env)))).
Proof.
  intros Hgo Hbound.
  assert (∀ count, run_outcome (cycle_run Client.GetLogs cfg st env) = Returned count None →
                   count = len (run_sent (cycle_run Client.GetLogs cfg st env))) as Hcount.
  { intros count Hout. unfold cycle_run in *. rewrite GetLogs_unfold in *.
    rewrite (GetLogs_loop_count _ _ _ _ _ _ Hout) by lia. lia. }
  revert Hgo. unfold pollCycle, getEvents, flushed_trace, fetched_trace.
  fold (cycle_run Client.GetLogs cfg st env).
  destruct (run_outcome (cycle_run Client.GetLogs cfg st env)) as [count [err|]|msg|];
    simpl; try done.
  specialize (Hcount count eq_refl). subst count.
  destruct (Z.gtb_spec (len (run_sent (cycle_run Client.GetLogs cfg st env))) 0)
    as [Hpos|Hzero].
  - destruct (drain (env_depths env)) as [waits drained]. simpl.
    destruct drained; simpl; [|done].
    destruct (env_write env); simpl; [done|].
    destruct (env_remove env); simpl; [done|].
    intros _. split.
    + intros Hnil. rewrite Hnil in Hpos. done.
    + intros _. rewrite <- !app_assoc. done.
  - intros _. split; [done|].
    intros Hsome. exfalso.
    destruct (run_sent (cycle_run Client.GetLogs cfg st env)); [done|].
    unfold len in Hzero. simpl in Hzero. lia.
Qed.

Lemma turn_flushes_what_was_sent_witness :
  pollCycle (@Client.GetLogs SmallLib.lib) ExampleCycles.cfg 30
    {| LastPollTimestamp := "t0" |} (ExampleCycles.busy None)
  = ([EvLog "Getting data..."; EvGetLogs "t0" "t2" ["A"; "B"; "C"];
      EvDrainWait 2; EvRotate; EvWriteToOutputs "/tmp/okta.2" "t2";
      EvRemove "/tmp/okta.2"; EvProcessed 3;
      EvSave {| LastPollTimestamp := "t2" |} "okta.state"; EvAfter 30],
     Continue {| LastPollTimestamp := "t2" |}).
Proof.
  destruct (@turn_flushes_what_was_sent SmallLib.lib ExampleCycles.cfg 30
              {| LastPollTimestamp := "t0" |} (ExampleCycles.busy None)
              {| LastPollTimestamp := "t2" |} eq_refl eq_refl) as [_ Hsent].
  destruct (Hsent ltac:(vm_compute; discriminate)) as (_ & _ & Htr).
  rewrite (surjective_pairing (pollCycle _ _ _ _ _)), Htr. reflexivity.
Defined.

(** ** More on the channel *)

Lemma pl_run_app capacity s1 s2 p :
  pl_run capacity (s1 ++ s2) p = pl_run capacity s2 (pl_run capacity s1 p).
Proof. apply foldl_app. Qed.

(** Letting the messages through one by one moves them to the file. *)
Lemma one_by_one_run capacity xs rest file :
  (1 ≤ capacity)%nat →
  pl_run capacity (one_by_one (length xs))
    {| pl_unsent := xs ++ rest; pl_queue := []; pl_taken := None; pl_file := file;
       pl_alive := true |}
  = {| pl_unsent := rest; pl_queue := []; pl_taken := None; pl_file := file ++ xs;
       pl_alive := true |}.
Proof.
  intros Hcap. revert file. induction xs as [|x xs IH]; intros file.
  - simpl. by rewrite app_nil_r.
  - destruct capacity as [|capacity]; [lia|].
    unfold pl_run in *. cbn [length one_by_one foldl app].
    change (pl_move (S capacity) ConsumerWrites
              (pl_move (S capacity) ConsumerReceives
                 (pl_move (S capacity) ProducerSends
                    {| pl_unsent := x :: xs ++ rest; pl_queue := []; pl_taken := None;
                       pl_file := file; pl_alive := true |})))
      with {| pl_unsent := xs ++ rest; pl_queue := []; pl_taken := None;
              pl_file := file ++ [x]; pl_alive := true |}.
    rewrite IH. by rewrite <- app_assoc.
Qed.

(** No deadlock and no loss: with room for at least one message there is a
    schedule under which every message of the sender reaches the temp file,
    in order, and channel and consumer end up empty. *)
Theorem pipeline_can_drain (capacity : nat) (sends : list string) :
  (1 ≤ capacity)%nat →
  pl_run capacity (one_by_one (length sends)) (pl_start sends)
  = {| pl_unsent := []; pl_queue := []; pl_taken := None; pl_file := sends;
       pl_alive := true |}.
Proof.
  intros Hcap. unfold pl_start.
  rewrite <- (app_nil_r sends) at 2.
  by rewrite (one_by_one_run capacity sends [] [] Hcap).
Qed.

Lemma pipeline_can_drain_witness :
  (1 ≤ maxMessages)%nat ∧
  pl_file (pl_run maxMessages (one_by_one 3) (pl_start ["A"; "B"; "C"])) = ["A"; "B"; "C"].
Proof.
  assert (1 ≤ maxMessages)%nat as Hcap by (unfold maxMessages; lia).
  split; [exact Hcap|].
  exact (f_equal pl_file (pipeline_can_drain maxMessages ["A"; "B"; "C"] Hcap)).
Defined.

(** An empty channel is no proof that the temp file is complete: for every
    sequence of messages there is a schedule after which everything is sent
    and the channel is empty (the test of the drain loop of [pollEvery]
    passes), while the consumer still holds the last message and the temp
    file lacks it. *)
Theorem empty_channel_is_no_barrier (capacity : nat) (sends : list string) (m : string) :
  (1 ≤ capacity)%nat →
  let pl := pl_run capacity
              (one_by_one (length sends) ++ [ProducerSends; ConsumerReceives])
              (pl_start (sends ++ [m])) in
  pl_unsent pl = [] ∧ length (pl_queue pl) = 0%nat ∧
  pl_taken pl = Some m ∧ pl_file pl = sends ∧ pl_alive pl = true.
Proof.
  intros Hcap. cbv zeta. rewrite pl_run_app. unfold pl_start.
  rewrite (one_by_one_run capacity sends [m] [] Hcap).
  destruct capacity as [|capacity]; [lia|]. done.
Qed.

Lemma empty_channel_is_no_barrier_witness :
  (1 ≤ maxMessages)%nat ∧
  pl_taken (pl_run maxMessages (one_by_one 2 ++ [ProducerSends; ConsumerReceives])
              (pl_start (["A"; "B"] ++ ["C"]))) = Some "C" ∧
  pl_file (pl_run maxMessages (one_by_one 2 ++ [ProducerSends; ConsumerReceives])
             (pl_start (["A"; "B"] ++ ["C"]))) = ["A"; "B"].
Proof.
  assert (1 ≤ maxMessages)%nat as Hcap by (unfold maxMessages; lia).
  split; [exact Hcap|].
  destruct (empty_channel_is_no_barrier maxMessages ["A"; "B"] "C" Hcap)
    as (_ & _ & Htaken & Hfile & _).
  split; [exact Htaken | exact Hfile].
Defined.

(** ** cli.go *)

(** [contains] tells membership. *)
Theorem contains_iff_member (s : list string) (e : string) :
  contains s e = true ↔ e ∈ s.
Proof.
  induction s as [|a s IH]; simpl.
  - split; [done|]. by intros ?%elem_of_nil.
  - rewrite elem_of_cons. destruct (String.eqb_spec a e) as [->|Hne].
    + split; [by left|done].
    + rewrite IH. split; [by right|]. by intros [->|].
Qed.

(** What [filepath.Ext] returns is empty or starts with its dot. *)
Lemma filepath_Ext_shape path :
  filepath_Ext path = "" ∨ ∃ rest, filepath_Ext path = String "." rest.
Proof.
  induction path as [|c rest IH]; simpl; [by left|].
  destruct (has_slash_or_dot rest); [exact IH|].
  destruct (Ascii.eqb_spec c "."); [subst; right; eauto|by left].
Qed.

(** No extension is a supported type: the types are listed without the dot
    that every extension starts with. *)
Lemma extension_is_not_supported path :
  contains supportedTypes (strings_ToLower (filepath_Ext path)) = false.
Proof.
  destruct (filepath_Ext_shape path) as [->|[rest ->]]; reflexivity.
Qed.

(** With the config option set, [checkConfigParams] does not report
    success. *)
Lemma checkConfigParams_never_succeeds env :
  set_config (cli_settings env) = true →
  ∀ settings, (checkConfigParams env).2 ≠ Ret (None, settings).
Proof.
  intros Hconfig settings. unfold checkConfigParams, fileExists. rewrite Hconfig.
  destruct (cli_stat env (set_config_path (cli_settings env))); try done.
  destruct (filepath_Split (set_config_path (cli_settings env))) as [dir file].
  rewrite extension_is_not_supported. done.
Qed.

(** With the config option set, [checkConfigParams] never gets to the
    config file: it panics when [os.Stat] fails with another error than
    not-exist, reports a missing path when the path is absent or a
    directory, and refuses every existing file, whatever its name, as of an
    invalid type, because the extension it compares against the supported
    types still has its dot. No call that would name or read the config
    file is made, and [setupCliFlags] does not return nil. *)
Theorem config_file_is_never_read (env : CliEnv) :
  set_config (cli_settings env) = true →
  (checkConfigParams env).1 = [] ∧
  (checkConfigParams env).2
  = match cli_stat env (set_config_path (cli_settings env)) with
    | StatError _ => Panic "invalid memory address or nil pointer dereference"
    | StatFile =>
        Ret (Some (errors_New
                     ("invalid config file type (supported: json, toml, yaml, yml, " +:+
                      "properties, props, prop, env, dotenv )")),
             cli_settings env)
    | StatDir | StatNotExist =>
        Ret (Some (errors_New "missing config file path param (--config-path)"),
             cli_settings env)
    end ∧
  (setupCliFlags env).1 = [] ∧
  ∀ settings, (setupCliFlags env).2 ≠ CliReturns None settings.
Proof.
  intros Hconfig.
  assert ((checkConfigParams env).1 = [] ∧
          (checkConfigParams env).2
          = match cli_stat env (set_config_path (cli_settings env)) with
            | StatError _ => Panic "invalid memory address or nil pointer dereference"
            | StatFile =>
                Ret (Some (errors_New
                             ("invalid config file type (supported: json, toml, yaml, yml, " +:+
                              "properties, props, prop, env, dotenv )")),
                     cli_settings env)
            | StatDir | StatNotExist =>
                Ret (Some (errors_New "missing config file path param (--config-path)"),
                     cli_settings env)
            end) as [Hcalls Hres].
  { unfold checkConfigParams, fileExists. rewrite Hconfig.
    destruct (cli_stat env (set_config_path (cli_settings env))); try done.
    destruct (filepath_Split (set_config_path (cli_settings env))) as [dir file].
    rewrite extension_is_not_supported. done. }
  split; [done|]. split; [done|].
  unfold setupCliFlags. destruct (cli_bind env); [done|].
  destruct (checkConfigParams env) as [calls checked]. simpl in *. subst calls checked.
  destruct (cli_stat env (set_config_path (cli_settings env))); done.
Qed.

Lemma config_file_is_never_read_witness :
  set_config (cli_settings (ExampleCli.env true)) = true ∧
  main_start (ExampleCli.env true) None
  = MainFatal ("initialization failed: invalid config file type (supported: json, toml, " +:+
               "yaml, yml, properties, props, prop, env, dotenv )") ∧
  (checkConfigParams (ExampleCli.env true)).1 = [].
Proof.
  split; [reflexivity|]. split; [reflexivity|].
  exact (proj1 (config_file_is_never_read (ExampleCli.env true) eq_refl)).
Defined.

(** [main] gets to start the poll loop exactly when the flags were bound,
    the config option is off, the Okta domain and API key are not empty,
    the state and output options are valid and the temp writer could be
    made; it then polls on the configured schedule with the settings as
    resolved. *)
Theorem collector_starts_iff (env : CliEnv) (tmp_writer : option error)
    (pollTime : Z) (settings : Settings) :
  main_start env tmp_writer = MainRuns pollTime settings ↔
  cli_bind env = None ∧
  set_config (cli_settings env) = false ∧
  settings = cli_settings env ∧
  pollTime = set_schedule settings ∧
  set_okta_domain settings ≠ "" ∧
  set_okta_api_key settings ≠ "" ∧
  cli_state_validate env = None ∧
  cli_outputs_validate env = None ∧
  tmp_writer = None.
Proof.
  unfold main_start, setupCliFlags.
  destruct (cli_bind env) as [e|]; simpl; [split; [done|by intros [? _]]|].
  destruct (set_config (cli_settings env)) eqn:Hconfig.
  { pose proof (checkConfigParams_never_succeeds env Hconfig) as Hres.
    destruct (checkConfigParams env) as [calls checked]. simpl in *.
    split; [|by intros (_ & ? & _)].
    destruct checked as [[[err|] s]|msg]; try done.
    by destruct (Hres s). }
  unfold checkConfigParams. rewrite Hconfig. simpl.
  unfold checkRequiredParams.
  destruct (String.eqb_spec (set_okta_domain (cli_settings env)) "") as [Hd|Hd]; simpl.
  { split; [done|]. intros (_ & _ & -> & _ & ? & _). done. }
  destruct (String.eqb_spec (set_okta_api_key (cli_settings env)) "") as [Hk|Hk]; simpl.
  { split; [done|]. intros (_ & _ & -> & _ & _ & ? & _). done. }
  destruct (cli_state_validate env) as [e|]; simpl.
  { split; [done|]. intros (_ & _ & _ & _ & _ & _ & ? & _). done. }
  destruct (cli_outputs_validate env) as [e|]; simpl.
  { split; [done|]. intros (_ & _ & _ & _ & _ & _ & _ & ? & _). done. }
  destruct tmp_writer as [e|]; simpl.
  { split; [done|]. intros (_ & _ & _ & _ & _ & _ & _ & _ & ?). done. }
  split.
  - intros [= <- <-]. done.
  - intros (_ & _ & -> & -> & _). done.
Qed.

(** ** Bounds and invariants *)

Lemma backoff_delays_sum k n :
  (k + n ≤ 6)%nat →
  foldr Z.add 0 (backoff_delay <$> seq k n) <= 63000 - (backoff_delay k - 1000).
Proof.
  revert k. induction n as [|n IH]; intros k Hk.
  - pose proof (backoff_delay_mono k 6 ltac:(lia)) as Hm.
    rewrite backoff_delay_6 in Hm. simpl. lia.
  - specialize (IH (S k) ltac:(lia)). rewrite backoff_delay_S in IH.
    unfold backoffFactor in IH.
    change (seq k (S n)) with (k :: seq (S k) n). rewrite fmap_cons. cbn [foldr]. lia.
Qed.

(** A retryable call sleeps 63 seconds in all at most, whatever the server
    answers. *)
Theorem call_sleeps_at_most_63_seconds (req : Request) (script : list Attempt) (call : Call) :
  Client.makeRetryableHttpCall req script = Some call →
  foldr Z.add 0 (call_sleeps call) <= 63000.
Proof.
  unfold Client.makeRetryableHttpCall. change initialBackoffMS with (backoff_delay 0).
  intros Hrun.
  destruct (retry_loop_sleeps 0 script call ltac:(lia) Hrun) as (n & Hn & ->).
  pose proof (backoff_delays_sum 0 n Hn) as Hsum.
  rewrite backoff_delay_0 in Hsum. unfold initialBackoffMS in Hsum. lia.
Qed.

Lemma call_sleeps_at_most_63_seconds_witness :
  ∃ call,
    Client.makeRetryableHttpCall Examples.get_logs
      (replicate 9 (DoReturns Examples.too_many_requests)) = Some call ∧
    foldr Z.add 0 (call_sleeps call) = 63000 ∧
    foldr Z.add 0 (call_sleeps call) <= 63000.
Proof.
  eexists. split; [reflexivity|]. split; [reflexivity|].
  exact (call_sleeps_at_most_63_seconds Examples.get_logs
           (replicate 9 (DoReturns Examples.too_many_requests)) _ eq_refl).
Defined.

(** A turn that goes through saves once, the state it goes on with. *)
Lemma pollCycle_saves_once `{GoLib}
    (GetLogs : OktaClient → string → string → list (list Attempt) → Run)
    (cfg : Config) (seconds : Z) (st : State) (env : CycleEnv) (st' : State) :
  (pollCycle GetLogs cfg seconds st env).2 = Continue st' →
  saved (pollCycle GetLogs cfg seconds st env).1 = [st'].
Proof.
  unfold pollCycle, getEvents.
  destruct (run_outcome _) as [count [err|]|msg|]; simpl; try done.
  destruct (count >? 0).
  - pose proof (drain_saves_nothing (env_depths env)) as Hw.
    destruct (drain (env_depths env)) as [waits drained]. simpl in *.
    destruct drained; simpl; [|done].
    destruct (env_write env); simpl; [done|].
    destruct (env_remove env); simpl; [done|].
    intros [= <-]. rewrite <- !app_assoc. simpl. rewrite saved_app, Hw. done.
  - simpl. by intros [= <-].
Qed.

(** As long as the loop runs, the disk follows the memory: after turns that
    all went through, the state the loop goes on with is the checkpoint on
    disk, and it is the [now] of the last turn. *)
Theorem disk_follows_memory `{GoLib}
    (GetLogs : OktaClient → string → string → list (list Attempt) → Run)
    (cfg : Config) (state_New : State) (seconds : Z) (st0 : State)
    (envs : list CycleEnv) (env : CycleEnv) (disk : option State)
    (tr : list Event) (st : State) :
  pollEvery GetLogs cfg state_New seconds (StateFileHolds (Ok st0)) (envs ++ [env])
  = (tr, Continue st) →
  st = checkpoint_of env ∧
  persisted disk tr = Some st ∧
  length (saved tr) = length (envs ++ [env]).
Proof.
  simpl. intros Hloop.
  destruct (poll_loop_persisted GetLogs cfg seconds st0 envs env tr st disk Hloop)
    as [-> Hdisk].
  split; [done|]. split; [done|].
  clear Hdisk. revert st0 tr Hloop.
  generalize (envs ++ [env]). clear envs. intros envs.
  generalize (checkpoint_of env). clear env. intros st.
  induction envs as [|env envs IH]; intros st0 tr; simpl.
  - by intros [= <- _].
  - pose proof (pollCycle_continue GetLogs cfg seconds st0 env) as Hcont.
    pose proof (pollCycle_save GetLogs cfg seconds st0 env) as Hsave.
    destruct (pollCycle GetLogs cfg seconds st0 env) as [tr1 e] eqn:Hturn.
    destruct e as [st1| | |]; try done.
    destruct (poll_loop GetLogs cfg seconds st1 envs) as [tr2 e2] eqn:Hrest.
    intros [= <- ->]. rewrite saved_app, length_app, (IH st1 tr2 Hrest).
    f_equal. simpl in *.
    pose proof (pollCycle_saves_once GetLogs cfg seconds st0 env st1) as Hs.
    rewrite Hturn in Hs. specialize (Hs eq_refl). simpl in Hs. by rewrite Hs.
Qed.

Lemma disk_follows_memory_witness :
  pollEvery (@Client.GetLogs SmallLib.lib) ExampleCycles.cfg {| LastPollTimestamp := "" |} 30
    (StateFileHolds (Ok {| LastPollTimestamp := "t0" |}))
    ([ExampleCycles.quiet] ++ [ExampleCycles.busy None])
  = ((pollEvery (@Client.GetLogs SmallLib.lib) ExampleCycles.cfg
        {| LastPollTimestamp := "" |} 30
        (StateFileHolds (Ok {| LastPollTimestamp := "t0" |}))
        ([ExampleCycles.quiet] ++ [ExampleCycles.busy None])).1,
     Continue {| LastPollTimestamp := "t2" |}) ∧
  persisted None
    (pollEvery (@Client.GetLogs SmallLib.lib) ExampleCycles.cfg
       {| LastPollTimestamp := "" |} 30
       (StateFileHolds (Ok {| LastPollTimestamp := "t0" |}))
       ([ExampleCycles.quiet] ++ [ExampleCycles.busy None])).1
  = Some {| LastPollTimestamp := "t2" |}.
Proof.
  assert (pollEvery (@Client.GetLogs SmallLib.lib) ExampleCycles.cfg
            {| LastPollTimestamp := "" |} 30
            (StateFileHolds (Ok {| LastPollTimestamp := "t0" |}))
            ([ExampleCycles.quiet] ++ [ExampleCycles.busy None])
          = ((pollEvery (@Client.GetLogs SmallLib.lib) ExampleCycles.cfg
                {| LastPollTimestamp := "" |} 30
                (StateFileHolds (Ok {| LastPollTimestamp := "t0" |}))
                ([ExampleCycles.quiet] ++ [ExampleCycles.busy None])).1,
             Continue {| LastPollTimestamp := "t2" |})) as Hrun by reflexivity.
  split; [exact Hrun|].
  exact (proj1 (proj2 (@disk_follows_memory SmallLib.lib (@Client.GetLogs SmallLib.lib)
                         ExampleCycles.cfg {| LastPollTimestamp := "" |} 30
                         {| LastPollTimestamp := "t0" |} [ExampleCycles.quiet]
                         (ExampleCycles.busy None) None _ _ Hrun))).
Defined.
